(** * Schema types and structural validation of object-editor-react

    A shallow embedding of the two modules of the schema library:
    - [validation] (isValidSchema, objectMatchesSchema, isArrayOfType,
      isValidShape, getOptionalValidator, ...), and
    - [Schema] (SchemaType, getOptionalSchemaTypeFactory, SchemaTypes),
    over a model of the JavaScript values they inspect.

    Function objects have an identity: [SchemaType] does not build a new
    object, it assigns the [__proto__] of the validator function it is
    given.  The properties that the library writes on function objects
    therefore live in a store, keyed by the identity of the function. *)

From Stdlib Require Import String Ascii List Bool Arith ZArith DecimalString.
From Stdlib Require Import Floats.PrimFloat Uint63.
From stdpp Require Import gmap strings.
Import ListNotations.

Local Open Scope string_scope.
Local Open Scope list_scope.

#[local] Set Warnings "-register-all".

(** ** JavaScript values *)

(** Identity of a function object. *)
Definition loc := nat.

(** The values the library receives.  A plain object is the list of its own
    enumerable properties in the order [Object.keys] enumerates them, under
    distinct keys; an array is the list of its elements, without holes; a
    function is its identity and its code.  The code is
    one of the closures that [validation] creates, or a function of the
    caller ([Foreign]).  Numbers are IEEE 754 doubles.  Objects with
    accessor properties or with a prototype of their own, symbols and
    proxies are not among the values. *)
Inductive value : Type :=
| VUndefined
| VNull
| VBoolean (b : bool)
| VNumber (n : float)
| VString (s : string)
| VObject (props : list (string * value))
| VArray (elems : list value)
| VDate (time : float)
| VFunction (id : loc) (c : code)
with code : Type :=
| PrimitiveValidator (type : string)   (* test => typeof test === type *)
| IsSomething                          (* validation.isSomething *)
| IsValidDate                          (* validation.isValidDate *)
| IsObject                             (* validation.isObject *)
| ArrayIsArray                         (* Array.isArray *)
| IsArrayOfType (type : value)         (* the closure isArrayOfType(type) returns *)
| ShapeValidator (shape : value)       (* object => objectMatchesSchema(shape, object) *)
| OptionalValidator (actuallyValidate : value)
                                       (* the closure getOptionalValidator returns *)
| Foreign (n : nat).                   (* a function written by the caller *)

Definition props := list (string * value).

(** Induction over values and the code of the functions inside them. *)
Section ValueInduction.
Variables (P : value -> Prop) (Q : code -> Prop).
Hypothesis P_undefined : P VUndefined.
Hypothesis P_null : P VNull.
Hypothesis P_boolean : forall b, P (VBoolean b).
Hypothesis P_number : forall n, P (VNumber n).
Hypothesis P_string : forall s, P (VString s).
Hypothesis P_object : forall ps, Forall (fun kv => P (snd kv)) ps -> P (VObject ps).
Hypothesis P_array : forall l, Forall P l -> P (VArray l).
Hypothesis P_date : forall t, P (VDate t).
Hypothesis P_function : forall id c, Q c -> P (VFunction id c).
Hypothesis Q_primitive : forall type, Q (PrimitiveValidator type).
Hypothesis Q_something : Q IsSomething.
Hypothesis Q_date : Q IsValidDate.
Hypothesis Q_object : Q IsObject.
Hypothesis Q_isArray : Q ArrayIsArray.
Hypothesis Q_arrayOf : forall type, P type -> Q (IsArrayOfType type).
Hypothesis Q_shape : forall shape, P shape -> Q (ShapeValidator shape).
Hypothesis Q_optional : forall f, P f -> Q (OptionalValidator f).
Hypothesis Q_foreign : forall n, Q (Foreign n).

Fixpoint value_code_ind (v : value) : P v :=
  match v with
  | VUndefined => P_undefined
  | VNull => P_null
  | VBoolean b => P_boolean b
  | VNumber n => P_number n
  | VString s => P_string s
  | VObject ps =>
      P_object ps
        ((fix go (l : props) : Forall (fun kv => P (snd kv)) l :=
            match l with
            | [] => @List.Forall_nil _ _
            | kv :: r => @List.Forall_cons _ _ kv r (value_code_ind (snd kv)) (go r)
            end) ps)
  | VArray l =>
      P_array l
        ((fix go (l : list value) : Forall P l :=
            match l with
            | [] => @List.Forall_nil _ _
            | x :: r => @List.Forall_cons _ _ x r (value_code_ind x) (go r)
            end) l)
  | VDate t => P_date t
  | VFunction id c => P_function id c (code_value_ind c)
  end
with code_value_ind (c : code) : Q c :=
  match c with
  | PrimitiveValidator type => Q_primitive type
  | IsSomething => Q_something
  | IsValidDate => Q_date
  | IsObject => Q_object
  | ArrayIsArray => Q_isArray
  | IsArrayOfType type => Q_arrayOf type (value_code_ind type)
  | ShapeValidator shape => Q_shape shape (value_code_ind shape)
  | OptionalValidator f => Q_optional f (value_code_ind f)
  | Foreign n => Q_foreign n
  end.
End ValueInduction.

(** What an induction over a value may assume of the values inside it. *)
Definition children (P : value -> Prop) (node : value) : Prop :=
  match node with
  | VObject ps => Forall (fun kv => P (snd kv)) ps
  | VArray l => Forall P l
  | _ => True
  end.

(** ** Completions: a returned value or a thrown exception *)

Inductive typeError : Type :=
| NotAFunction (callee : value)                      (* calling a non-function *)
| CannotReadProperty (key : string) (base : value)    (* property read on undefined or null *)
| RestrictedProperty (key : string) (base : value).   (* caller or arguments read on a function *)

Inductive exception : Type :=
| Error (message : string)       (* throw new Error(message) *)
| TypeError (why : typeError)    (* raised by the language itself *)
| Unmodelled.                    (* outside the model: see [SchemaType] and
                                    [objectMatchesSchemaInner] *)

Inductive result (A : Type) : Type :=
| Return (a : A)
| Throw (e : exception).
Arguments Return {A} a.
Arguments Throw {A} e.

Definition bind {A B : Type} (r : result A) (k : A -> result B) : result B :=
  match r with
  | Return a => k a
  | Throw e => Throw e
  end.

Notation "x <- e ;; k" := (bind e (fun x => k))
  (at level 100, e at next level, right associativity).

(** ** The realm: what the host provides and the library never writes *)

Inductive prototype : Type :=
| ObjectPrototype | FunctionPrototype | ArrayPrototype | StringPrototype
| NumberPrototype | BooleanPrototype | DatePrototype.

(** Properties are data properties: reading one runs no code.  The
    exception is [caller] and [arguments], which [Function.prototype]
    holds as accessors that throw (see [get]).
    - [inherited p key]: what the lookup of [key] finds from the built-in
      prototype [p] upwards ([VUndefined] when nothing is found);
    - [intrinsic f key]: the own [length], [name] and [prototype] of a
      function object, when it has one; for a function of the caller,
      also the own [caller] and [arguments] that a host gives to the
      functions of non-strict code;
    - [foreign n]: the behaviour of the caller's function number [n];
    - [ToString v]: the text a template literal substitutes for [v];
    - [JSON_stringify v]: the text substituted for [JSON.stringify(v)]. *)
Record realm : Type := {
  inherited : prototype -> string -> value;
  intrinsic : value -> string -> option value;
  foreign : nat -> value -> result value;
  ToString : value -> string;
  JSON_stringify : value -> string
}.

(** ** The store: properties the library writes on function objects *)

(** [proto]: [None] while the function still has [Function.prototype],
    [Some ps] once [SchemaType] has assigned the object literal with own
    properties [ps] to its [__proto__].  [own]: the enumerable own
    properties assigned to the function ([isRequired]). *)
Record fobject : Type := {
  proto : option props;
  own : props
}.

Record store : Type := {
  objects : gmap loc fobject;
  next : loc              (* identity of the next function object created *)
}.

Definition fresh : fobject := {| proto := None; own := [] |}.

Definition fobjectOf (σ : store) (id : loc) : fobject :=
  match objects σ !! id with
  | Some o => o
  | None => fresh
  end.

(** ** Language primitives *)

Definition typeof (v : value) : string :=
  match v with
  | VUndefined => "undefined"
  | VNull => "object"
  | VBoolean _ => "boolean"
  | VNumber _ => "number"
  | VString _ => "string"
  | VObject _ => "object"
  | VArray _ => "object"
  | VDate _ => "object"
  | VFunction _ _ => "function"
  end.

(** ToBoolean: the falsy values are undefined, null, false, 0, NaN and the
    empty string. *)
Definition truthy (v : value) : bool :=
  match v with
  | VUndefined | VNull => false
  | VBoolean b => b
  | VNumber n => negb (PrimFloat.eqb n 0 || PrimFloat.is_nan n)
  | VString s => negb (s =? EmptyString)
  | VObject _ | VArray _ | VDate _ | VFunction _ _ => true
  end.

(** [a && b] on values, with [b] already evaluated (used where evaluating
    [b] has no effect). *)
Definition and_ (a b : value) : value := if truthy a then b else a.

(** Object.prototype.toString.call(object) *)
Definition toString (object : value) : string :=
  match object with
  | VUndefined => "[object Undefined]"
  | VNull => "[object Null]"
  | VBoolean _ => "[object Boolean]"
  | VNumber _ => "[object Number]"
  | VString _ => "[object String]"
  | VObject _ => "[object Object]"
  | VArray _ => "[object Array]"
  | VDate _ => "[object Date]"
  | VFunction _ _ => "[object Function]"
  end.

Definition Array_isArray (v : value) : bool :=
  match v with
  | VArray _ => true
  | _ => false
  end.

Definition elements (v : value) : list value :=
  match v with
  | VArray l => l
  | _ => []
  end.

Definition string_of_nat (n : nat) : string :=
  NilZero.string_of_uint (Nat.to_uint n).

Definition number_of_nat (n : nat) : float :=
  PrimFloat.of_uint63 (Uint63.of_Z (Z.of_nat n)).

(** First property named [key]. *)
Fixpoint assoc (key : string) (ps : props) : option value :=
  match ps with
  | [] => None
  | (k, v) :: rest => if k =? key then Some v else assoc key rest
  end.

(** The elements of an array (or the characters of a string) under their
    index keys "0", "1", ... *)
Fixpoint indexedFrom (i : nat) (l : list value) : props :=
  match l with
  | [] => []
  | x :: rest => (string_of_nat i, x) :: indexedFrom (S i) rest
  end.

Definition indexed (l : list value) : props := indexedFrom 0 l.

Definition characters (s : string) : list value :=
  map (fun c => VString (String c EmptyString)) (list_ascii_of_string s).

Definition functionIntrinsics : list string := ["length"; "name"; "prototype"].

Section Runtime.
Variable R : realm.
Variable σ : store.

(** The own enumerable properties, in [Object.keys] order. *)
Definition ownEntries (v : value) : props :=
  match v with
  | VObject ps => ps
  | VArray l => indexed l
  | VString s => indexed (characters s)
  | VFunction id _ => own (fobjectOf σ id)
  | _ => []
  end.

Definition Object_keys (v : value) : list string := map fst (ownEntries v).

(** [caller] and [arguments].  A function of strict code, an arrow
    function and a built-in function have no own property of these names,
    and [Function.prototype] answers the read with a TypeError. *)
Definition restricted (key : string) : bool :=
  existsb (String.eqb key) ["caller"; "arguments"].

(** The functions of the library are arrow functions of a module, and
    [Array.isArray] is a built-in; a function of the caller may come from
    non-strict code. *)
Definition strict (c : code) : bool :=
  match c with
  | Foreign _ => false
  | _ => true
  end.

(** Own property [key] of [v], enumerable or not. *)
Definition ownProperty (v : value) (key : string) : option value :=
  match assoc key (ownEntries v) with
  | Some x => Some x
  | None =>
      match v with
      | VArray l =>
          if key =? "length" then Some (VNumber (number_of_nat (length l))) else None
      | VString s =>
          if key =? "length" then Some (VNumber (number_of_nat (String.length s)))
          else None
      | VFunction _ c =>
          if existsb (String.eqb key) functionIntrinsics then intrinsic R v key
          else if restricted key && negb (strict c) then intrinsic R v key
          else None
      | _ => None
      end
  end.

(** Lookup of [key] along the prototype chain of [v]. *)
Definition inheritedProperty (v : value) (key : string) : value :=
  match v with
  | VUndefined | VNull => VUndefined
  | VBoolean _ => inherited R BooleanPrototype key
  | VNumber _ => inherited R NumberPrototype key
  | VString _ => inherited R StringPrototype key
  | VObject _ => inherited R ObjectPrototype key
  | VArray _ => inherited R ArrayPrototype key
  | VDate _ => inherited R DatePrototype key
  | VFunction id _ =>
      match proto (fobjectOf σ id) with
      | None => inherited R FunctionPrototype key
      | Some ps =>
          match assoc key ps with
          | Some x => x
          | None => inherited R ObjectPrototype key
          end
      end
  end.

(** The lookup of [key] from [v] reaches the accessors of
    [Function.prototype]: [v] is a function that still has it as its
    prototype, and [key] is [caller] or [arguments]. *)
Definition poisoned (v : value) (key : string) : bool :=
  match v with
  | VFunction id _ =>
      match proto (fobjectOf σ id) with
      | None => restricted key
      | Some _ => false
      end
  | _ => false
  end.

(** The property read [v[key]] (also written [v.key]). *)
Definition get (v : value) (key : string) : result value :=
  match v with
  | VUndefined | VNull => Throw (TypeError (CannotReadProperty key v))
  | _ =>
      match ownProperty v key with
      | Some x => Return x
      | None =>
          if poisoned v key then Throw (TypeError (RestrictedProperty key v))
          else Return (inheritedProperty v key)
      end
  end.
End Runtime.

(** ** Iteration *)

Section Iteration.
Context {A : Type}.
Variable f : string -> value -> result A.

(** [Object.keys(o).map(key => f(key, o[key]))] on the entries of a plain
    object: the calls are made in order and the first exception ends the
    iteration.  [forEach] differs only in dropping the results. *)
Fixpoint mapEntries (ps : props) : result (list A) :=
  match ps with
  | [] => Return []
  | (key, child) :: rest =>
      r <- f key child ;;
      rs <- mapEntries rest ;;
      Return (r :: rs)
  end.

(** The same on the elements of an array, whose keys are its indices. *)
Fixpoint mapIndexedFrom (i : nat) (l : list value) : result (list A) :=
  match l with
  | [] => Return []
  | child :: rest =>
      r <- f (string_of_nat i) child ;;
      rs <- mapIndexedFrom (S i) rest ;;
      Return (r :: rs)
  end.
End Iteration.

Section Every.
Variable predicate : value -> result value.

(** lodash's [_.every(array, predicate)] on an array: false at the first
    element whose result is falsy, true when there is none. *)
Fixpoint every (array : list value) : result value :=
  match array with
  | [] => Return (VBoolean true)
  | el :: rest =>
      r <- predicate el ;;
      if truthy r then every rest else Return (VBoolean false)
  end.
End Every.

(** ** validation.js *)

Definition dquote : string := String (ascii_of_nat 34) EmptyString.

(** The message of the error [objectMatchesSchema] throws. *)
Definition expectedValidSchema : string :=
  "Expected " +:+ dquote +:+ "schema" +:+ dquote +:+ " to be a valid schema".

(** [getPrimitiveValidator(type)(test)]: typeof test === type *)
Definition getPrimitiveValidator (type : string) (test : value) : bool :=
  typeof test =? type.

Definition isSomething (test : value) : bool :=
  negb (typeof test =? "undefined").

Definition isObject (test : value) : bool :=
  toString test =? "[object Object]".

(** [test.getTime()] of a date is its time value, NaN for an invalid date. *)
Definition isValidDate (test : value) : bool :=
  if negb (toString test =? "[object Date]") then false
  else match test with
       | VDate time => negb (PrimFloat.is_nan time)
       | _ => false
       end.

Section Validation.
Variable R : realm.
Variable σ : store.

Definition invalidSchemaMessage (badLeaf : value) (location : string) : string :=
  "(At " +:+ location +:+ "): Expected a SchemaType, but got "
    +:+ ToString R badLeaf +:+ ":" +:+ typeof badLeaf.

(** Success is the return of [null], failure an exception.  The keys of
    a plain object and of an array are visited in [Object.keys] order. *)
Fixpoint isValidSchema (schema : value) (location : string) {struct schema}
  : result value :=
  marker <- get R σ schema "_isSchemaType" ;;
  if truthy marker then Return VNull
  else if (typeof schema =? "object") && (0 <? length (Object_keys σ schema))%nat then
    _ <- match schema with
         | VObject ps =>
             mapEntries
               (fun key child => isValidSchema child (location +:+ "." +:+ key)) ps
         | VArray l =>
             mapIndexedFrom
               (fun key child => isValidSchema child (location +:+ "." +:+ key)) 0 l
         | _ => Return []
         end ;;
    Return VNull
  else Throw (Error (invalidSchemaMessage schema location)).

(** [testObject && testObject[key]] *)
Definition guardedGet (testObject : value) (key : string) : result value :=
  if truthy testObject then get R σ testObject key else Return testObject.

(** The validation step of [objectMatchesSchema], followed by [inner]. *)
Definition validated (inner : value -> value -> result value)
  (schema testObject : value) : result value :=
  match isValidSchema schema EmptyString with
  | Throw _ => Throw (Error expectedValidSchema)
  | Return _ => inner schema testObject
  end.

(** The call [f(arg)], given the bodies of the functions. *)
Definition callWith (run : code -> value -> result value) (f arg : value)
  : result value :=
  match f with
  | VFunction _ c => run c arg
  | _ => Throw (TypeError (NotAFunction f))
  end.

(** [objectMatchesSchemaInner] and the bodies of the functions.  A node
    without the marker that is neither a plain object nor an array has its
    keys outside the value (a function) or recurs without end (a string);
    [isValidSchema] lets no such node through, and the matcher is only
    entered after it (lemma [objectMatchesSchema_modelled]). *)
Fixpoint objectMatchesSchemaInner (schema testObject : value) {struct schema}
  : result value :=
  marker <- get R σ schema "_isSchemaType" ;;
  if truthy marker then callWith run schema testObject
  else
    matches <-
      match schema with
      | VObject ps =>
          mapEntries
            (fun key child =>
               field <- guardedGet testObject key ;;
               objectMatchesSchemaInner child field) ps
      | VArray l =>
          mapIndexedFrom
            (fun key child =>
               field <- guardedGet testObject key ;;
               objectMatchesSchemaInner child field) 0 l
      | _ =>
          match Object_keys σ schema with
          | [] => Return []
          | _ :: _ => Throw Unmodelled
          end
      end ;;
    Return (fold_left and_ matches (VBoolean true))
with run (c : code) (test : value) {struct c} : result value :=
  match c with
  | PrimitiveValidator type => Return (VBoolean (getPrimitiveValidator type test))
  | IsSomething => Return (VBoolean (isSomething test))
  | IsValidDate => Return (VBoolean (isValidDate test))
  | IsObject => Return (VBoolean (isObject test))
  | ArrayIsArray => Return (VBoolean (Array_isArray test))
  | IsArrayOfType type =>
      if Array_isArray test
      then every (validated objectMatchesSchemaInner type) (elements test)
      else Return (VBoolean false)
  | ShapeValidator shape => validated objectMatchesSchemaInner shape test
  | OptionalValidator actuallyValidate =>
      if typeof test =? "undefined" then Return (VBoolean true)
      else callWith run actuallyValidate test
  | Foreign n => foreign R n test
  end.

Definition call (f arg : value) : result value := callWith run f arg.

Definition objectMatchesSchema (schema testObject : value) : result value :=
  validated objectMatchesSchemaInner schema testObject.

(** The function [isArrayOfType(type)] returns, applied to [testArray]. *)
Definition isArrayOfType (type testArray : value) : result value :=
  if Array_isArray testArray
  then every (objectMatchesSchema type) (elements testArray)
  else Return (VBoolean false).

Definition isValidShape (schema : value) : result value :=
  if negb (isObject schema)
  then Throw (Error ("Expected schema to be an object, but got " +:+ typeof schema))
  else isValidSchema schema EmptyString.

(** [getOptionalValidator(actuallyValidate)(testObject)] *)
Definition getOptionalValidator (actuallyValidate testObject : value) : result value :=
  if typeof testObject =? "undefined" then Return (VBoolean true)
  else call actuallyValidate testObject.
End Validation.

(** ** Schema.js *)

(** Computations that create function objects and write their properties:
    they run in a store and leave a store, also when they throw. *)
Definition M (A : Type) : Type := store -> result A * store.

Definition ret {A : Type} (a : A) : M A := fun σ => (Return a, σ).

Definition throw {A : Type} (e : exception) : M A := fun σ => (Throw e, σ).

Definition mbind {A B : Type} (m : M A) (k : A -> M B) : M B :=
  fun σ =>
    match m σ with
    | (Return a, σ') => k a σ'
    | (Throw e, σ') => (Throw e, σ')
    end.

Notation "x <~ e ;; k" := (mbind e (fun x => k))
  (at level 100, e at next level, right associativity).

(** Evaluation of an expression that only reads the store. *)
Definition reading {A : Type} (f : store -> result A) : M A :=
  fun σ => (f σ, σ).

(** [o[key] = v] on the properties of [o]: an existing property keeps its
    place, a new one comes last. *)
Fixpoint setProperty (key : string) (v : value) (ps : props) : props :=
  match ps with
  | [] => [(key, v)]
  | (k, x) :: rest =>
      if k =? key then (k, v) :: rest else (k, x) :: setProperty key v rest
  end.

(** [{...ps, ...source}]: the own enumerable properties of [source] written
    over the properties [ps], in order. *)
Definition spread (σ : store) (ps : props) (source : value) : props :=
  fold_left (fun acc kv => setProperty (fst kv) (snd kv) acc) (ownEntries σ source) ps.

(** A parameter declared [opts = {}]. *)
Definition orEmptyObject (opts : value) : value :=
  match opts with
  | VUndefined => VObject []
  | _ => opts
  end.

(** Evaluation of a function expression: a new function object, on which
    nothing has been written yet. *)
Definition newFunction (c : code) : M value :=
  fun σ =>
    (Return (VFunction (next σ) c),
     {| objects := delete (next σ) (objects σ); next := S (next σ) |}).

Definition write (id : loc) (o : fobject) (σ : store) : store :=
  {| objects := <[id := o]> (objects σ); next := next σ |}.

(** The assignment [func.__proto__ = ...] finds a data property named
    [__proto__] before it reaches the setter of [Object.prototype]: an own
    property of the function, or a property of its current prototype (an
    options object that had this key). *)
Definition shadowed (o : fobject) : bool :=
  match assoc "__proto__" (own o), proto o with
  | Some _, _ => true
  | None, Some current =>
      match assoc "__proto__" current with
      | Some _ => true
      | None => false
      end
  | None, None => false
  end.

(** [func.__proto__ = { ...ps }]: the assignment reaches the setter of
    [Object.prototype], which replaces the prototype of the function.
    Where the setter is [shadowed] the data property takes the write and
    the prototype stays: what is proved of the prototype of a function
    that a store already holds is stated for a function on which the
    setter is not shadowed. *)
Definition setProto (id : loc) (ps : props) : M unit :=
  fun σ => (Return tt, write id {| proto := Some ps; own := own (fobjectOf σ id) |} σ).

(** [func[key] = v] *)
Definition setOwn (func : value) (key : string) (v : value) : M unit :=
  fun σ =>
    match func with
    | VFunction id _ =>
        (Return tt,
         write id {| proto := proto (fobjectOf σ id);
                     own := setProperty key v (own (fobjectOf σ id)) |} σ)
    | _ => (Throw Unmodelled, σ)
    end.

(** [SchemaType(validate, type, opts)]: the function [validate] itself is
    returned, with a new object as its [__proto__].  The library passes
    functions only; other arguments are outside the model. *)
Definition SchemaType (validate : value) (type : string) (opts : value) : M value :=
  let opts := orEmptyObject opts in
  let func := validate in
  match func with
  | VFunction id _ =>
      fun σ =>
        (_ <~ setProto id
                (spread σ [("_isSchemaType", VBoolean true); ("_type", VString type)] opts) ;;
         ret func) σ
  | _ => throw Unmodelled
  end.

(** The factory [getOptionalSchemaTypeFactory(validator, typeName)]
    returns, applied to [opts]. *)
Definition getOptionalSchemaTypeFactory (validator : value) (typeName : string)
  : value -> M value :=
  fun opts =>
    let opts := orEmptyObject opts in
    (* validation.getOptionalValidator(validator) evaluates an arrow function *)
    optionalValidator <~ newFunction (OptionalValidator validator) ;;
    optionalSchemaType <~ SchemaType optionalValidator typeName opts ;;
    (* The required variant *)
    required <~ SchemaType validator typeName opts ;;
    _ <~ setOwn optionalSchemaType "isRequired" required ;;
    ret optionalSchemaType.

(** The validator functions that the module creates once, when it is
    loaded, and hands to the factories of [SchemaTypes]. *)
Definition isSomething_function : value := VFunction 0 IsSomething.
Definition stringValidator : value := VFunction 1 (PrimitiveValidator "string").
Definition booleanValidator : value := VFunction 2 (PrimitiveValidator "boolean").
Definition functionValidator : value := VFunction 3 (PrimitiveValidator "function").
Definition numberValidator : value := VFunction 4 (PrimitiveValidator "number").
Definition isValidDate_function : value := VFunction 5 IsValidDate.
Definition Array_isArray_function : value := VFunction 6 ArrayIsArray.
Definition isObject_function : value := VFunction 7 IsObject.

(** The store when the module has been loaded: no function object has been
    written to yet. *)
Definition initialStore : store := {| objects := ∅; next := 8 |}.

Module SchemaTypes.
Definition any := getOptionalSchemaTypeFactory isSomething_function "any".
Definition boolean := getOptionalSchemaTypeFactory booleanValidator "boolean".
Definition function := getOptionalSchemaTypeFactory functionValidator "function".
Definition number := getOptionalSchemaTypeFactory numberValidator "number".
Definition date := getOptionalSchemaTypeFactory isValidDate_function "date".
Definition array := getOptionalSchemaTypeFactory Array_isArray_function "array".
Definition object := getOptionalSchemaTypeFactory isObject_function "object".

(** The factory [arrayOf(arrayElementType)] returns, applied to [options]. *)
Definition arrayOf (arrayElementType : value) : value -> M value :=
  fun options =>
    let options := orEmptyObject options in
    (* validation.isArrayOfType(arrayElementType) evaluates a function *)
    validator <~ newFunction (IsArrayOfType arrayElementType) ;;
    literal <~ reading (fun σ =>
      Return (VObject (setProperty "_elementType" arrayElementType
                         (spread σ [] options)))) ;;
    getOptionalSchemaTypeFactory validator "arrayOf" literal.

(** [shape(shape)] either throws or returns a factory. *)
Definition shape (R : realm) (shape : value) : M (value -> M value) :=
  valid <~ reading (fun σ => isValidShape R σ shape) ;;
  if negb (truthy valid)
  then throw (Error ("Expected a valid shape, but got " +:+ JSON_stringify R shape))
  else
    ret (fun options =>
           let options := orEmptyObject options in
           validator <~ newFunction (ShapeValidator shape) ;;
           literal <~ reading (fun σ =>
             Return (VObject (setProperty "_shape" shape (spread σ [] options)))) ;;
           getOptionalSchemaTypeFactory validator "shape" literal).

Definition string := getOptionalSchemaTypeFactory stringValidator "string".
End SchemaTypes.

(** ** Notions used to state the properties *)

Section Notions.
Variable R : realm.
Variable σ : store.

(** A well-formed schema, as [isValidSchema] decides it: a node that
    carries a truthy [_isSchemaType], or a value of type "object" with at
    least one own enumerable key whose values are all well-formed. *)
Inductive validSchema : value -> Prop :=
| valid_marked node marker :
    get R σ node "_isSchemaType" = Return marker ->
    truthy marker = true ->
    validSchema node
| valid_fields node :
    typeof node = "object" ->
    ownEntries σ node <> [] ->
    Forall (fun kv => validSchema (snd kv)) (ownEntries σ node) ->
    validSchema node.

(** The entries that [isValidSchema] and the matcher iterate over. *)
Definition fieldsOf (schema : value) : props :=
  match schema with
  | VObject _ | VArray _ => ownEntries σ schema
  | _ => []
  end.

(** [atPath node path bad]: following the keys of [path] from [node]
    leads to [bad]. *)
Inductive atPath : value -> list string -> value -> Prop :=
| at_here node : atPath node [] node
| at_field node key child path bad :
    In (key, child) (ownEntries σ node) ->
    atPath child path bad ->
    atPath node (key :: path) bad.

(** [.field.subfield...] *)
Fixpoint dotted (path : list string) : string :=
  match path with
  | [] => EmptyString
  | key :: rest => ("." +:+ key) +:+ dotted rest
  end.

(** A node that is neither a leaf nor a mapping with a key. *)
Definition offending (bad : value) : Prop :=
  match get R σ bad "_isSchemaType" with
  | Throw _ => True
  | Return marker =>
      truthy marker = false /\
      (typeof bad <> "object" \/ ownEntries σ bad = [])
  end.

(** [el] structurally matches [S]: the match returns a truthy value. *)
Definition matchesSchema (S el : value) : Prop :=
  exists r, objectMatchesSchema R σ S el = Return r /\ truthy r = true.

(** [v] and [w] agree on the keys of the schema [S] as the matcher reads
    them: they are the same value, or [S] is a field mapping (a plain
    object or an array) and under every key of [S] the fields that
    [testObject && testObject[key]] gives for [v] and for [w] agree on the
    schema at that key.  A falsy value stands for itself under every key
    here; [agreeOnKeys] below is the agreement of the specification. *)
Inductive agree : value -> value -> value -> Prop :=
| agree_same S v : agree S v v
| agree_object ps v w :
    Forall (fun kv => exists fv fw,
              guardedGet R σ v (fst kv) = Return fv /\
              guardedGet R σ w (fst kv) = Return fw /\
              agree (snd kv) fv fw) ps ->
    agree (VObject ps) v w
| agree_array l v w :
    Forall (fun kv => exists fv fw,
              guardedGet R σ v (fst kv) = Return fv /\
              guardedGet R σ w (fst kv) = Return fw /\
              agree (snd kv) fv fw) (indexed l) ->
    agree (VArray l) v w.

(** Structured data, in the words of the specification: a value that has
    fields, as opposed to a primitive. *)
Definition structured (v : value) : bool :=
  match v with
  | VObject _ | VArray _ | VDate _ | VFunction _ _ => true
  | _ => false
  end.

(** The field of the specification, [value?.[key]]: read from the value
    when it is structured data, absent (undefined) otherwise. *)
Definition specifiedField (v : value) (key : string) : result value :=
  if structured v then get R σ v key else Return VUndefined.

(** Agreement on the keys of [S] as the specification has it: the same
    value, or under every key of the field mapping [S] the specified
    fields of [v] and of [w] agree on the schema at that key. *)
Inductive agreeOnKeys : value -> value -> value -> Prop :=
| agreeOnKeys_same S v : agreeOnKeys S v v
| agreeOnKeys_object ps v w :
    Forall (fun kv => exists fv fw,
              specifiedField v (fst kv) = Return fv /\
              specifiedField w (fst kv) = Return fw /\
              agreeOnKeys (snd kv) fv fw) ps ->
    agreeOnKeys (VObject ps) v w
| agreeOnKeys_array l v w :
    Forall (fun kv => exists fv fw,
              specifiedField v (fst kv) = Return fv /\
              specifiedField w (fst kv) = Return fw /\
              agreeOnKeys (snd kv) fv fw) (indexed l) ->
    agreeOnKeys (VArray l) v w.

(** The schemas of the specification: a leaf is a function that carries
    the marker and whose code is one of the library's validators, over
    schemas of the same kind; a mapping is a plain object with at least
    one field that does not carry the marker.  No field is named [caller]
    or [arguments]: read from a function, these throw. *)
Inductive librarySchema : value -> Prop :=
| library_leaf id c marker :
    get R σ (VFunction id c) "_isSchemaType" = Return marker ->
    truthy marker = true ->
    libraryCode c ->
    librarySchema (VFunction id c)
| library_mapping ps marker :
    get R σ (VObject ps) "_isSchemaType" = Return marker ->
    truthy marker = false ->
    ps <> [] ->
    Forall (fun kv => restricted (fst kv) = false) ps ->
    Forall (fun kv => librarySchema (snd kv)) ps ->
    librarySchema (VObject ps)
with libraryCode : code -> Prop :=
| library_primitive type : libraryCode (PrimitiveValidator type)
| library_isSomething : libraryCode IsSomething
| library_isValidDate : libraryCode IsValidDate
| library_isObject : libraryCode IsObject
| library_isArray : libraryCode ArrayIsArray
| library_arrayOf type : librarySchema type -> libraryCode (IsArrayOfType type)
| library_shape shape : librarySchema shape -> libraryCode (ShapeValidator shape)
| library_optional id c : libraryCode c -> libraryCode (OptionalValidator (VFunction id c)).
End Notions.

Definition isUndefined (v : value) : bool :=
  match v with
  | VUndefined => true
  | _ => false
  end.

Definition isString (v : value) : bool :=
  match v with
  | VString _ => true
  | _ => false
  end.

Definition isBoolean (v : value) : bool :=
  match v with
  | VBoolean _ => true
  | _ => false
  end.

(** The built-in prototypes carry no [_isSchemaType]: a plain object or an
    array is a leaf only through a property of its own. *)
Definition unmarked (R : realm) : Prop :=
  forall p, truthy (inherited R p "_isSchemaType") = false.

(** ** Notions for the further properties *)

(** A schema all of whose leaves are optional: each leaf is a function
    that carries the marker and whose code is the closure that
    [getOptionalValidator] returns; each mapping is a plain object with a
    field that does not carry the marker. *)
Inductive optionalSchema (R : realm) (σ : store) : value -> Prop :=
| optional_leaf id f marker :
    get R σ (VFunction id (OptionalValidator f)) "_isSchemaType" = Return marker ->
    truthy marker = true ->
    optionalSchema R σ (VFunction id (OptionalValidator f))
| optional_mapping ps marker :
    get R σ (VObject ps) "_isSchemaType" = Return marker ->
    truthy marker = false ->
    ps <> [] ->
    Forall (fun kv => optionalSchema R σ (snd kv)) ps ->
    optionalSchema R σ (VObject ps).

Definition isNumber (v : value) : bool :=
  match v with
  | VNumber _ => true
  | _ => false
  end.

Definition isFunction (v : value) : bool :=
  match v with
  | VFunction _ _ => true
  | _ => false
  end.

Definition isPlainObject (v : value) : bool :=
  match v with
  | VObject _ => true
  | _ => false
  end.

(** A date whose time value is a number. *)
Definition isDateWithTime (v : value) : bool :=
  match v with
  | VDate time => negb (PrimFloat.is_nan time)
  | _ => false
  end.

(** The schema types of [factory] accept undefined and the values that
    [accepted] holds of; their [isRequired] accepts the latter only.  The
    answers are booleans, and they are the same in every later store. *)
Definition acceptsExactly (factory : value -> M value) (accepted : value -> bool) : Prop :=
  forall (R : realm) (opts : value) (σ : store),
  exists s required σ',
    factory opts σ = (Return s, σ') /\
    get R σ' s "isRequired" = Return required /\
    forall σ'' v,
      call R σ'' s v = Return (VBoolean (isUndefined v || accepted v)) /\
      call R σ'' required v = Return (VBoolean (accepted v)).

(** ** Examples *)

(** A realm in which nothing is inherited from the built-in prototypes and
    the caller has no functions of its own.  The examples read the
    properties [_isSchemaType], [isRequired] and their own field names
    only. *)
Definition bare : realm := {|
  inherited := fun _ _ => VUndefined;
  intrinsic := fun _ _ => None;
  foreign := fun _ _ => Return VUndefined;
  ToString := fun v =>
    match v with
    | VUndefined => "undefined"
    | VNull => "null"
    | VBoolean true => "true"
    | VBoolean false => "false"
    | VString s => s
    | VObject _ => "[object Object]"
    | _ => EmptyString   (* numbers, arrays, dates, functions: not rendered *)
    end;
  JSON_stringify := fun _ => EmptyString   (* not rendered *)
|}.

(** [a.isRequired] *)
Definition isRequired (R : realm) (a : value) : M value :=
  reading (fun σ => get R σ a "isRequired").

(** objectMatchesSchema(shape({a: string()})(), {a: 'hi'}) *)
Definition shapeExample (R : realm) : M value :=
  a <~ SchemaTypes.string VUndefined ;;
  factory <~ SchemaTypes.shape R (VObject [("a", a)]) ;;
  s <~ factory VUndefined ;;
  reading (fun σ => objectMatchesSchema R σ s (VObject [("a", VString "hi")])).

(** objectMatchesSchema({n: number().isRequired}, 0) *)
Definition requiredNumberOfZero (R : realm) : M value :=
  n <~ SchemaTypes.number VUndefined ;;
  required <~ isRequired R n ;;
  reading (fun σ => objectMatchesSchema R σ (VObject [("n", required)]) (VNumber 0)).

(** The schema [{baz: {biz: number().isRequired}}] *)
Definition nestedRequiredNumber (R : realm) : M value :=
  n <~ SchemaTypes.number VUndefined ;;
  required <~ isRequired R n ;;
  ret (VObject [("baz", VObject [("biz", required)])]).

(** objectMatchesSchema({caller: any()}, f) *)
Definition callerOfFunction (R : realm) (f : value) : M value :=
  s <~ SchemaTypes.any VUndefined ;;
  reading (fun σ => objectMatchesSchema R σ (VObject [("caller", s)]) f).

(** objectMatchesSchema({_isSchemaType: string()}, v) *)
Definition markerNamedField (R : realm) (v : value) : M value :=
  s <~ SchemaTypes.string VUndefined ;;
  reading (fun σ => objectMatchesSchema R σ (VObject [("_isSchemaType", s)]) v).

(** isValidSchema([string()]) *)
Definition arraySchema (R : realm) : M value :=
  s <~ SchemaTypes.string VUndefined ;;
  reading (fun σ => isValidSchema R σ (VArray [s]) EmptyString).

(** The schema and the instances of the repository's tests
    (test/mocha/validation.js). *)
Definition VALID_SCHEMA (R : realm) : M value :=
  s <~ SchemaTypes.string VUndefined ;;
  foo <~ isRequired R s ;;
  bar <~ SchemaTypes.number VUndefined ;;
  biz <~ SchemaTypes.number VUndefined ;;
  boz <~ SchemaTypes.number VUndefined ;;
  nested <~ SchemaTypes.number VUndefined ;;
  ret (VObject
         [("foo", foo);
          ("bar", bar);
          ("baz", VObject
                    [("biz", biz);
                     ("boz", boz);
                     ("booz", VObject [("barz", VObject [("nested", nested)])])])]).

Definition instance (foo bar biz : value) : value :=
  VObject
    [("foo", foo);
     ("bar", bar);
     ("baz", VObject
               [("biz", biz);
                ("boz", VNumber 1);
                ("booz", VObject [("barz", VObject [("nested", VNumber 1)])])])].

Definition validSchemaInstances : list value :=
  [instance (VString "string") (VNumber 1) (VNumber 1);
   VObject [("foo", VString "string")]].

Definition invalidInstances : list value :=
  [instance (VString "string") (VString "string") (VNumber nan);
   VObject [("foo", VNumber 1)];
   VObject [("foo", VNull)];
   VObject [];
   VNumber 1;
   VUndefined].

(** [instances.map(instance => objectMatchesSchema(VALID_SCHEMA, instance))] *)
Fixpoint matchEach (R : realm) (σ : store) (schema : value) (instances : list value)
  : result (list value) :=
  match instances with
  | [] => Return []
  | i :: rest =>
      r <- objectMatchesSchema R σ schema i ;;
      rs <- matchEach R σ schema rest ;;
      Return (r :: rs)
  end.

Definition matchValidSchema (R : realm) (instances : list value) : M (list value) :=
  schema <~ VALID_SCHEMA R ;;
  reading (fun σ => matchEach R σ schema instances).

(** [isArrayOfType(VALID_SCHEMA)(testArray)] *)
Definition arrayOfValidSchema (R : realm) (testArray : value) : M value :=
  schema <~ VALID_SCHEMA R ;;
  reading (fun σ => isArrayOfType R σ schema testArray).

(** [arrayOf(number())()] called on [testArray] *)
Definition arrayOfNumbers (R : realm) (testArray : value) : M value :=
  n <~ SchemaTypes.number VUndefined ;;
  numbers <~ SchemaTypes.arrayOf n VUndefined ;;
  reading (fun σ => call R σ numbers testArray).

(** objectMatchesSchema({a: arrayOf({})()}, {a: [1]}) *)
Definition arrayOfEmptyObject (R : realm) : M value :=
  a <~ SchemaTypes.arrayOf (VObject []) VUndefined ;;
  reading (fun σ =>
    objectMatchesSchema R σ (VObject [("a", a)]) (VObject [("a", VArray [VNumber 1])])).

(** [isValidShape(VALID_SCHEMA)] and [isValidShape(string())] *)
Definition shapeOfValidSchema (R : realm) : M value :=
  schema <~ VALID_SCHEMA R ;;
  reading (fun σ => isValidShape R σ schema).

Definition shapeOfSchemaType (R : realm) : M value :=
  s <~ SchemaTypes.string VUndefined ;;
  reading (fun σ => isValidShape R σ s).

(** What [a = string({x: 1}); b = string({x: 2})] leaves to read: [x] on
    [a], the functions [a.isRequired] and [b.isRequired], and [x] on
    [a.isRequired] before and after [b] was made. *)
Record twoStrings : Type := {
  a_x_after : value;
  a_isRequired : value;
  b_isRequired : value;
  a_isRequired_x_before : value;
  a_isRequired_x_after : value
}.

Definition stringTwice (R : realm) : M twoStrings :=
  a <~ SchemaTypes.string (VObject [("x", VNumber 1)]) ;;
  ra <~ isRequired R a ;;
  before <~ reading (fun σ => get R σ ra "x") ;;
  b <~ SchemaTypes.string (VObject [("x", VNumber 2)]) ;;
  rb <~ isRequired R b ;;
  ax <~ reading (fun σ => get R σ a "x") ;;
  after <~ reading (fun σ => get R σ ra "x") ;;
  ret {| a_x_after := ax; a_isRequired := ra; b_isRequired := rb;
         a_isRequired_x_before := before; a_isRequired_x_after := after |}.

(** * Properties *)

(** ** Completions and iteration *)

Lemma value_children_ind (P : value -> Prop) :
  (forall node, children P node -> P node) -> forall node, P node.
Proof.
  intros step node.
  induction node using value_code_ind with (Q := fun _ => True);
    auto; apply step; simpl; auto.
Qed.

Lemma append_assoc (a b c : string) : (a +:+ b) +:+ c = a +:+ (b +:+ c).
Proof.
  induction a as [|ch a IH]; [reflexivity|].
  change (String ch ((a +:+ b) +:+ c) = String ch (a +:+ (b +:+ c))).
  now rewrite IH.
Qed.

Lemma append_empty (a : string) : a +:+ EmptyString = a.
Proof.
  induction a as [|ch a IH]; [reflexivity|].
  change (String ch (a +:+ EmptyString) = String ch a). now rewrite IH.
Qed.

Lemma bind_Return {A B : Type} (r : result A) (k : A -> result B) (b : B) :
  (x <- r ;; k x) = Return b -> exists a, r = Return a /\ k a = Return b.
Proof. destruct r as [a|e]; simpl; intros H; [eauto | discriminate]. Qed.

Lemma bind_Throw {A B : Type} (r : result A) (k : A -> result B) (e : exception) :
  (x <- r ;; k x) = Throw e -> r = Throw e \/ exists a, r = Return a /\ k a = Throw e.
Proof. destruct r as [a|e']; simpl; intros H; [eauto | left; congruence]. Qed.

Section IterationFacts.
Context {A : Type}.
Variable f : string -> value -> result A.

Lemma mapIndexedFrom_entries (i : nat) (l : list value) :
  mapIndexedFrom f i l = mapEntries f (indexedFrom i l).
Proof.
  revert i; induction l as [|x l IH]; intros i; simpl; [reflexivity|].
  now rewrite IH.
Qed.

Lemma mapEntries_Return (ps : props) (rs : list A) :
  mapEntries f ps = Return rs ->
  Forall (fun kv => exists r, f (fst kv) (snd kv) = Return r) ps.
Proof.
  revert rs; induction ps as [|[key child] ps IH]; intros rs H; [constructor|].
  simpl in H. apply bind_Return in H as (r & Hr & H).
  apply bind_Return in H as (rs' & Hrs & _).
  constructor; [simpl; eauto | eauto].
Qed.

Lemma mapEntries_Throw (ps : props) (e : exception) :
  mapEntries f ps = Throw e ->
  exists key child, In (key, child) ps /\ f key child = Throw e.
Proof.
  induction ps as [|[key child] ps IH]; simpl; intros H; [discriminate|].
  apply bind_Throw in H as [H | (r & Hr & H)].
  - exists key, child; auto.
  - apply bind_Throw in H as [H | (rs & _ & H)]; [|discriminate].
    destruct (IH H) as (k & c & Hin & Hf). exists k, c; auto.
Qed.

Lemma mapEntries_total (ps : props) :
  Forall (fun kv => exists r, f (fst kv) (snd kv) = Return r) ps ->
  exists rs, mapEntries f ps = Return rs.
Proof.
  induction 1 as [|[key child] ps (r & Hr) _ (rs & Hrs)]; simpl; [eauto|].
  simpl in Hr. rewrite Hr; simpl. rewrite Hrs; simpl. eauto.
Qed.
End IterationFacts.

Lemma mapEntries_ext {A : Type} (f g : string -> value -> result A) (ps : props) :
  Forall (fun kv => f (fst kv) (snd kv) = g (fst kv) (snd kv)) ps ->
  mapEntries f ps = mapEntries g ps.
Proof.
  induction 1 as [|[key child] ps H _ IH]; simpl; [reflexivity|].
  simpl in H. now rewrite H, IH.
Qed.

Lemma Forall_indexedFrom (P : value -> Prop) (i : nat) (l : list value) :
  Forall P l -> Forall (fun kv => P (snd kv)) (indexedFrom i l).
Proof.
  intros H; revert i; induction H as [|x l Hx _ IH]; intros i; simpl; constructor; auto.
Qed.

Lemma indexedFrom_nil (i : nat) (l : list value) : indexedFrom i l = [] -> l = [].
Proof. destruct l; [reflexivity | discriminate]. Qed.

(** ** Property reads *)

Lemma poisoned_restricted (σ : store) (v : value) (key : string) :
  restricted key = false -> poisoned σ v key = false.
Proof.
  intros H. destruct v; try reflexivity. simpl.
  now destruct (proto (fobjectOf σ id)).
Qed.

(** A read throws on undefined and null, and on a function that answers
    [caller] or [arguments] from [Function.prototype]; no other read
    throws. *)
Lemma get_returns (R : realm) (σ : store) (v : value) (key : string) :
  restricted key = false -> v <> VUndefined -> v <> VNull ->
  exists x, get R σ v key = Return x.
Proof.
  intros Hkey Hu Hn. pose proof (poisoned_restricted σ v key Hkey) as Hp.
  destruct v; try congruence; unfold get;
    destruct (ownProperty R σ _ key); eauto; rewrite Hp; eauto.
Qed.

Lemma get_Throw (R : realm) (σ : store) (v : value) (key : string) (e : exception) :
  get R σ v key = Throw e ->
  ((v = VUndefined \/ v = VNull) /\ e = TypeError (CannotReadProperty key v)) \/
  (poisoned σ v key = true /\ e = TypeError (RestrictedProperty key v)).
Proof.
  unfold get. destruct v; try (intros H; injection H as <-; auto);
    destruct (ownProperty R σ _ key); try discriminate;
    destruct (poisoned σ _ key); try discriminate; intros H; injection H as <-; auto.
Qed.

(** ** isValidSchema *)

Section SchemaFacts.
Variable R : realm.
Variable σ : store.

Lemma isValidSchema_eq (schema : value) (location : string) :
  isValidSchema R σ schema location =
    (marker <- get R σ schema "_isSchemaType" ;;
     if truthy marker then Return VNull
     else if (typeof schema =? "object") && (0 <? length (Object_keys σ schema))%nat then
       _ <- mapEntries
              (fun key child => isValidSchema R σ child (location +:+ "." +:+ key))
              (fieldsOf σ schema) ;;
       Return VNull
     else Throw (Error (invalidSchemaMessage R schema location))).
Proof.
  destruct schema; try reflexivity.
  cbn [isValidSchema].
  destruct (get R σ (VArray elems) "_isSchemaType") as [m|e]; cbn [bind];
    [|reflexivity].
  destruct (truthy m); [reflexivity|].
  destruct (_ && _); [|reflexivity].
  unfold fieldsOf, ownEntries, indexed. now rewrite mapIndexedFrom_entries.
Qed.

(** Success is the return of [null]. *)
Lemma isValidSchema_returns_null (schema : value) (location : string) (r : value) :
  isValidSchema R σ schema location = Return r -> r = VNull.
Proof.
  rewrite isValidSchema_eq. intros H.
  apply bind_Return in H as (m & _ & H).
  destruct (truthy m); [congruence|].
  destruct (_ && _); [|discriminate].
  apply bind_Return in H as (? & _ & H). congruence.
Qed.

(** A value of type "object" with a key is a plain object or an array. *)
Lemma mapping_entries (schema : value) :
  (typeof schema =? "object") && (0 <? length (Object_keys σ schema))%nat = true ->
  typeof schema = "object" /\
  ownEntries σ schema <> [] /\
  fieldsOf σ schema = ownEntries σ schema.
Proof.
  intros H. apply andb_true_iff in H as [Ht Hk].
  apply String.eqb_eq in Ht. apply Nat.ltb_lt in Hk.
  unfold Object_keys in Hk. rewrite length_map in Hk.
  split; [assumption|]. split.
  - intros E. rewrite E in Hk. simpl in Hk. lia.
  - destruct schema; simpl in *; try reflexivity; try discriminate; lia.
Qed.

Lemma mapping_test (schema : value) :
  typeof schema = "object" -> ownEntries σ schema <> [] ->
  (typeof schema =? "object") && (0 <? length (Object_keys σ schema))%nat = true.
Proof.
  intros Ht Hk. rewrite Ht. simpl.
  apply Nat.ltb_lt. unfold Object_keys. rewrite length_map.
  destruct (ownEntries σ schema); [congruence | simpl; lia].
Qed.

Lemma children_entries (P : value -> Prop) (schema : value) :
  children P schema ->
  typeof schema = "object" ->
  Forall (fun kv => P (snd kv)) (ownEntries σ schema).
Proof.
  destruct schema; simpl; intros H Ht; try discriminate; try constructor; auto.
  now apply Forall_indexedFrom.
Qed.

Lemma isValidSchema_sound (node : value) :
  forall location,
    isValidSchema R σ node location = Return VNull -> validSchema R σ node.
Proof.
  induction node as [node IH] using value_children_ind.
  intros location H. rewrite isValidSchema_eq in H.
  apply bind_Return in H as (m & Hm & H).
  destruct (truthy m) eqn:Ht; [eapply valid_marked; eauto|].
  destruct (_ && _) eqn:Hc; [|discriminate].
  apply mapping_entries in Hc as (Hty & Hne & He). rewrite He in H.
  apply bind_Return in H as (rs & Hrs & _).
  apply valid_fields; auto.
  apply mapEntries_Return in Hrs.
  pose proof (children_entries _ _ IH Hty) as IH'.
  rewrite List.Forall_forall in *. intros kv Hin.
  destruct (Hrs kv Hin) as (r & Hr).
  pose proof (isValidSchema_returns_null _ _ _ Hr). subst r.
  eapply IH'; eauto.
Qed.

Lemma isValidSchema_complete (node : value) :
  validSchema R σ node ->
  forall location, isValidSchema R σ node location = Return VNull.
Proof.
  induction node as [node IH] using value_children_ind.
  intros Hv location. rewrite isValidSchema_eq.
  inversion Hv as [? m Hm Ht | ? Hty Hne Hall]; subst.
  - rewrite Hm. simpl. now rewrite Ht.
  - assert (exists m, get R σ node "_isSchemaType" = Return m) as (m & Hm).
    { apply get_returns; [reflexivity | |]; intros E; rewrite E in Hty, Hne;
        simpl in *; congruence. }
    rewrite Hm. simpl. destruct (truthy m); [reflexivity|].
    pose proof (mapping_test _ Hty Hne) as Hc. rewrite Hc.
    apply mapping_entries in Hc as (_ & _ & He). rewrite He.
    pose proof (children_entries _ _ IH Hty) as IH'.
    destruct (mapEntries_total
                (fun key child => isValidSchema R σ child (location +:+ "." +:+ key))
                (ownEntries σ node)) as (rs & Hrs).
    { rewrite List.Forall_forall in *. intros kv Hin. exists VNull.
      apply IH'; auto. }
    rewrite Hrs. reflexivity.
Qed.

(** The error of a failure names a node below the root and the path to
    it, unless that node is undefined or null. *)
Lemma isValidSchema_failure (node : value) :
  forall location e,
    isValidSchema R σ node location = Throw e ->
    exists path bad,
      atPath σ node path bad /\ offending R σ bad /\
      (bad <> VUndefined -> bad <> VNull ->
       e = Error (invalidSchemaMessage R bad (location +:+ dotted path))).
Proof.
  induction node as [node IH] using value_children_ind.
  intros location e H. rewrite isValidSchema_eq in H.
  apply bind_Throw in H as [H | (m & Hm & H)].
  - exists [], node. split; [constructor|]. split.
    + unfold offending. now rewrite H.
    + intros Hu Hn.
      destruct (get_returns R σ node "_isSchemaType" eq_refl Hu Hn) as (m & Hm).
      congruence.
  - destruct (truthy m) eqn:Ht; [discriminate|].
    destruct (_ && _) eqn:Hc.
    + apply mapping_entries in Hc as (Hty & Hne & He). rewrite He in H.
      apply bind_Throw in H as [H | (? & _ & H)]; [|discriminate].
      apply mapEntries_Throw in H as (key & child & Hin & H).
      pose proof (children_entries _ _ IH Hty) as IH'.
      rewrite List.Forall_forall in IH'.
      destruct (IH' _ Hin _ _ H) as (path & bad & Hp & Ho & He').
      exists (key :: path), bad. split; [econstructor; eauto|].
      split; [assumption|]. intros H1 H2. rewrite (He' H1 H2).
      simpl. now rewrite !append_assoc.
    + exists [], node. split; [constructor|]. split.
      * unfold offending. rewrite Hm. split; [assumption|].
        apply andb_false_iff in Hc as [Hc | Hc].
        -- left. now apply String.eqb_neq in Hc.
        -- right. apply Nat.ltb_ge in Hc. unfold Object_keys in Hc.
           rewrite length_map in Hc.
           destruct (ownEntries σ node); [reflexivity | simpl in Hc; lia].
      * intros _ _. simpl. rewrite append_empty. congruence.
Qed.
End SchemaFacts.

(** *** C3.  [isValidSchema] succeeds exactly on the well-formed schemas,
    arrays with elements included; on every other node it throws, and the
    error names the offending node and the dotted path to it whenever that
    node is neither undefined nor null. *)
Theorem isValidSchema_characterisation
  (R : realm) (σ : store) (node : value) (location : string) :
  (isValidSchema R σ node location = Return VNull <-> validSchema R σ node) /\
  (~ validSchema R σ node ->
   exists e path bad,
     isValidSchema R σ node location = Throw e /\
     atPath σ node path bad /\
     offending R σ bad /\
     (bad <> VUndefined -> bad <> VNull ->
      e = Error (invalidSchemaMessage R bad (location +:+ dotted path)))).
Proof.
  split.
  - split; [apply isValidSchema_sound | intros H; now apply isValidSchema_complete].
  - intros Hinvalid.
    destruct (isValidSchema R σ node location) as [r|e] eqn:H.
    + pose proof (isValidSchema_returns_null _ _ _ _ _ H). subst r.
      destruct Hinvalid. eapply isValidSchema_sound; eauto.
    + destruct (isValidSchema_failure _ _ _ _ _ H) as (path & bad & Hp & Ho & He).
      exists e, path, bad. auto.
Qed.

(** An array of schema types is accepted, where the specification lists
    arrays among the nodes that fail. *)
Lemma isValidSchema_accepts_an_array :
  fst (arraySchema bare initialStore) = Return VNull.
Proof. vm_compute. reflexivity. Qed.

(** On undefined the failure is the type error of the property read. *)
Lemma isValidSchema_of_undefined (R : realm) (σ : store) (location : string) :
  isValidSchema R σ VUndefined location =
  Throw (TypeError (CannotReadProperty "_isSchemaType" VUndefined)).
Proof. reflexivity. Qed.

(** The path in the message: [{foo: {bar: 'x'}}] fails at [.foo.bar]. *)
Lemma isValidSchema_message_example :
  isValidSchema bare initialStore
    (VObject [("foo", VObject [("bar", VString "x")])]) EmptyString =
  Throw (Error "(At .foo.bar): Expected a SchemaType, but got x:string").
Proof. vm_compute. reflexivity. Qed.

(** ** The matcher *)

Lemma assoc_setProperty_other (key k : string) (x : value) (ps : props) :
  k <> key -> assoc k (setProperty key x ps) = assoc k ps.
Proof.
  intros Hne. induction ps as [|[k' y] ps IH]; simpl.
  - destruct (key =? k) eqn:E; [|reflexivity].
    apply String.eqb_eq in E. congruence.
  - destruct (k' =? key) eqn:E; simpl.
    + apply String.eqb_eq in E. subst k'.
      destruct (key =? k) eqn:E'; [|reflexivity].
      apply String.eqb_eq in E'. congruence.
    + now rewrite IH.
Qed.

Lemma every_Return_true (predicate : value -> result value) (l : list value) :
  every predicate l = Return (VBoolean true) <->
  Forall (fun el => exists r, predicate el = Return r /\ truthy r = true) l.
Proof.
  induction l as [|el l IH]; simpl.
  - split; [constructor | reflexivity].
  - split.
    + intros H. destruct (predicate el) as [r|e] eqn:Hp; simpl in H; [|discriminate].
      destruct (truthy r) eqn:Ht; [|discriminate].
      constructor; [eauto | now apply IH].
    + intros H. inversion H as [|? ? (r & Hr & Ht) Hl]; subst.
      rewrite Hr. simpl. rewrite Ht. now apply IH.
Qed.

Section MatcherFacts.
Variable R : realm.
Variable σ : store.

Lemma objectMatchesSchemaInner_eq (schema testObject : value) :
  objectMatchesSchemaInner R σ schema testObject =
    (marker <- get R σ schema "_isSchemaType" ;;
     if truthy marker then call R σ schema testObject
     else
       matches <-
         match schema with
         | VObject _ | VArray _ =>
             mapEntries
               (fun key child =>
                  field <- guardedGet R σ testObject key ;;
                  objectMatchesSchemaInner R σ child field)
               (ownEntries σ schema)
         | _ =>
             match Object_keys σ schema with
             | [] => Return []
             | _ :: _ => Throw Unmodelled
             end
         end ;;
       Return (fold_left and_ matches (VBoolean true))).
Proof.
  destruct schema; try reflexivity.
  cbn [objectMatchesSchemaInner].
  destruct (get R σ (VArray elems) "_isSchemaType") as [m|e]; cbn [bind];
    [|reflexivity].
  destruct (truthy m); [reflexivity|].
  unfold ownEntries, indexed. now rewrite mapIndexedFrom_entries.
Qed.

(** The code of the closure [isArrayOfType(type)] is [isArrayOfType]. *)
Lemma run_IsArrayOfType (type testArray : value) :
  run R σ (IsArrayOfType type) testArray = isArrayOfType R σ type testArray.
Proof. reflexivity. Qed.

Lemma run_ShapeValidator (shape object : value) :
  run R σ (ShapeValidator shape) object = objectMatchesSchema R σ shape object.
Proof. reflexivity. Qed.

Lemma run_OptionalValidator (actuallyValidate testObject : value) :
  run R σ (OptionalValidator actuallyValidate) testObject =
  getOptionalValidator R σ actuallyValidate testObject.
Proof. reflexivity. Qed.

(** A value that is not a function cannot be called. *)
Lemma call_not_a_function (f arg : value) :
  (forall id c, f <> VFunction id c) ->
  call R σ f arg = Throw (TypeError (NotAFunction f)).
Proof. destruct f; intros H; try reflexivity. now destruct (H id c). Qed.

(** The guarded read does not throw, unless the key is [caller] or
    [arguments] and the value read from a function. *)
Lemma guardedGet_returns (testObject : value) (key : string) :
  restricted key = false ->
  exists field, guardedGet R σ testObject key = Return field.
Proof.
  intros Hkey. unfold guardedGet. destruct (truthy testObject) eqn:Ht; [|eauto].
  apply get_returns; [assumption | |]; intros ->; discriminate.
Qed.

Lemma guardedGet_Throw (testObject : value) (key : string) (e : exception) :
  guardedGet R σ testObject key = Throw e ->
  e = TypeError (RestrictedProperty key testObject).
Proof.
  unfold guardedGet. destruct (truthy testObject) eqn:Ht; [|discriminate].
  intros H. destruct (get_Throw _ _ _ _ _ H) as [[[-> | ->] _] | [_ ->]];
    [discriminate | discriminate | reflexivity].
Qed.

Lemma agree_inner (S : value) :
  forall v w,
    agree R σ S v w ->
    objectMatchesSchemaInner R σ S v = objectMatchesSchemaInner R σ S w.
Proof.
  induction S as [S IH] using value_children_ind.
  assert (step : forall v w,
    Forall (fun kv => exists fv fw,
              guardedGet R σ v (fst kv) = Return fv /\
              guardedGet R σ w (fst kv) = Return fw /\
              agree R σ (snd kv) fv fw) (ownEntries σ S) ->
    typeof S = "object" ->
    mapEntries (fun key child =>
                  field <- guardedGet R σ v key ;;
                  objectMatchesSchemaInner R σ child field) (ownEntries σ S) =
    mapEntries (fun key child =>
                  field <- guardedGet R σ w key ;;
                  objectMatchesSchemaInner R σ child field) (ownEntries σ S)).
  { intros v w Hall Hty. apply mapEntries_ext.
    pose proof (children_entries σ _ _ IH Hty) as IH'.
    rewrite List.Forall_forall in *. intros kv Hin.
    destruct (Hall kv Hin) as (fv & fw & Hv & Hw & Ha).
    rewrite Hv, Hw. simpl. now apply IH'. }
  intros v w Ha. inversion Ha as [| ps ? ? Hall | l ? ? Hall]; subst;
    [reflexivity | |];
    rewrite !objectMatchesSchemaInner_eq;
    (destruct (get R σ _ "_isSchemaType") as [m|]; [cbn [bind]|reflexivity]);
    (destruct (truthy m); [reflexivity|]);
    now rewrite (step v w Hall eq_refl).
Qed.
End MatcherFacts.

(** *** C6.  An invalid schema makes [objectMatchesSchema] throw one error,
    whatever the value and whatever error [isValidSchema] raised; the
    message is the one the source gives it. *)
Theorem objectMatchesSchema_invalid_schema
  (R : realm) (σ : store) (S v : value) (e : exception) :
  isValidSchema R σ S EmptyString = Throw e ->
  objectMatchesSchema R σ S v = Throw (Error expectedValidSchema).
Proof.
  intros H. unfold objectMatchesSchema, validated. now rewrite H.
Qed.

Lemma objectMatchesSchema_invalid_schema_witness :
  isValidSchema bare initialStore (VObject []) EmptyString =
    Throw (Error (invalidSchemaMessage bare (VObject []) EmptyString)) /\
  objectMatchesSchema bare initialStore (VObject []) (VNumber 1) =
    Throw (Error expectedValidSchema).
Proof.
  split; [reflexivity|].
  apply (objectMatchesSchema_invalid_schema bare initialStore (VObject []) (VNumber 1)
           (Error (invalidSchemaMessage bare (VObject []) EmptyString))).
  reflexivity.
Defined.

(** The message in the words of the specification is not the message of
    the code. *)
Lemma objectMatchesSchema_message_differs :
  objectMatchesSchema bare initialStore (VObject []) VUndefined <>
  Throw (Error "expected a valid schema").
Proof. vm_compute. discriminate. Qed.

(** *** C7.  [isArrayOfType(S)] returns false on every value that is not an
    array, and returns true exactly on the arrays whose elements all match
    [S] through [objectMatchesSchema]. *)
Theorem isArrayOfType_spec (R : realm) (σ : store) (S x : value) :
  ((forall l, x <> VArray l) -> isArrayOfType R σ S x = Return (VBoolean false)) /\
  (isArrayOfType R σ S x = Return (VBoolean true) <->
   exists l, x = VArray l /\ Forall (matchesSchema R σ S) l).
Proof.
  split.
  - intros H. destruct x; try reflexivity. now destruct (H elems).
  - unfold isArrayOfType. split.
    + destruct x; simpl; try discriminate. intros H.
      exists elems. split; [reflexivity|]. now apply every_Return_true in H.
    + intros (l & -> & H). simpl. now apply every_Return_true.
Qed.

(** *** C9.  A truthy [_isSchemaType] is all that [isValidSchema] asks of a
    leaf; when the value that carries it is not a function, matching
    against it throws for every value. *)
Theorem marker_alone_makes_a_leaf
  (R : realm) (σ : store) (o marker : value) (location : string) :
  get R σ o "_isSchemaType" = Return marker ->
  truthy marker = true ->
  isValidSchema R σ o location = Return VNull /\
  ((forall id c, o <> VFunction id c) ->
   forall v, objectMatchesSchema R σ o v = Throw (TypeError (NotAFunction o))).
Proof.
  intros Hm Ht. split.
  - rewrite isValidSchema_eq, Hm. simpl. now rewrite Ht.
  - intros Hf v. unfold objectMatchesSchema, validated.
    rewrite isValidSchema_eq, Hm. simpl. rewrite Ht.
    rewrite objectMatchesSchemaInner_eq, Hm. simpl. rewrite Ht.
    now apply call_not_a_function.
Qed.

Lemma marker_alone_makes_a_leaf_witness :
  get bare initialStore (VObject [("_isSchemaType", VBoolean true)]) "_isSchemaType" =
    Return (VBoolean true) /\
  truthy (VBoolean true) = true /\
  isValidSchema bare initialStore (VObject [("_isSchemaType", VBoolean true)]) EmptyString =
    Return VNull /\
  ((forall id c, VObject [("_isSchemaType", VBoolean true)] <> VFunction id c) ->
   forall v,
     objectMatchesSchema bare initialStore (VObject [("_isSchemaType", VBoolean true)]) v =
     Throw (TypeError (NotAFunction (VObject [("_isSchemaType", VBoolean true)])))).
Proof.
  split; [reflexivity|]. split; [reflexivity|].
  apply (marker_alone_makes_a_leaf bare initialStore
           (VObject [("_isSchemaType", VBoolean true)]) (VBoolean true) EmptyString);
    reflexivity.
Defined.

(** The match depends on the value only through the fields as the matcher
    reads them: values that [agree] on the keys of [S] get the same
    result, and writing a field that a mapping does not name changes
    nothing. *)
Theorem matching_reads_schema_keys_only (R : realm) (σ : store) (S : value) :
  (forall v w,
     agree R σ S v w ->
     objectMatchesSchema R σ S v = objectMatchesSchema R σ S w) /\
  (forall fields ps key x,
     S = VObject fields ->
     ~ In key (map fst fields) ->
     objectMatchesSchema R σ S (VObject (setProperty key x ps)) =
     objectMatchesSchema R σ S (VObject ps)).
Proof.
  assert (main : forall v w, agree R σ S v w ->
            objectMatchesSchema R σ S v = objectMatchesSchema R σ S w).
  { intros v w Ha. unfold objectMatchesSchema, validated.
    destruct (isValidSchema R σ S EmptyString); [|reflexivity].
    now apply agree_inner. }
  split; [exact main|].
  intros fields ps key x -> Hnot. symmetry. apply main.
  apply agree_object. rewrite List.Forall_forall. intros [k child] Hin.
  assert (k <> key) as Hne.
  { intros ->. apply Hnot. now apply (in_map fst) in Hin. }
  assert (Hw : guardedGet R σ (VObject (setProperty key x ps)) k =
               guardedGet R σ (VObject ps) k).
  { unfold guardedGet, get, ownProperty. simpl.
    now rewrite assoc_setProperty_other. }
  assert (exists f, guardedGet R σ (VObject ps) k = Return f) as (f & Hf).
  { unfold guardedGet, get. simpl. destruct (ownProperty R σ (VObject ps) k); eauto. }
  exists f, f. simpl. rewrite Hw. auto using agree_same.
Qed.

Lemma matching_reads_schema_keys_only_witness :
  ~ In "b" (map fst [("a", VFunction 8 (OptionalValidator stringValidator))]) /\
  objectMatchesSchema bare (snd (SchemaTypes.string VUndefined initialStore))
    (VObject [("a", VFunction 8 (OptionalValidator stringValidator))])
    (VObject (setProperty "b" (VNumber 1) [("a", VString "hi")])) =
  objectMatchesSchema bare (snd (SchemaTypes.string VUndefined initialStore))
    (VObject [("a", VFunction 8 (OptionalValidator stringValidator))])
    (VObject [("a", VString "hi")]).
Proof.
  assert (H : ~ In "b" (map fst [("a", VFunction 8 (OptionalValidator stringValidator))])).
  { simpl. intros [H | []]. discriminate. }
  split; [exact H|].
  apply (proj2 (matching_reads_schema_keys_only bare
                  (snd (SchemaTypes.string VUndefined initialStore))
                  (VObject [("a", VFunction 8 (OptionalValidator stringValidator))]))
           [("a", VFunction 8 (OptionalValidator stringValidator))]
           [("a", VString "hi")] "b" (VNumber 1) eq_refl H).
Defined.

(** The value with the extra field matches, as the value without it does. *)
Lemma extra_field_example :
  objectMatchesSchema bare (snd (SchemaTypes.string VUndefined initialStore))
    (VObject [("a", VFunction 8 (OptionalValidator stringValidator))])
    (VObject (setProperty "b" (VNumber 1) [("a", VString "hi")])) =
  Return (VBoolean true).
Proof. vm_compute. reflexivity. Qed.

(** *** C10.  The values [{baz: 0}] and [{baz: {}}] agree on the keys of
    [{baz: {biz: number().isRequired}}], neither having a field [biz], and
    yet the first matches and the second does not: the guard
    [testObject && testObject[key]] hands the falsy 0 itself to [biz]. *)
Theorem values_that_agree_match_differently (R : realm) :
  unmarked R ->
  inherited R ObjectPrototype "biz" = VUndefined ->
  exists S σ,
    nestedRequiredNumber R initialStore = (Return S, σ) /\
    validSchema R σ S /\
    agreeOnKeys R σ S (VObject [("baz", VNumber 0)]) (VObject [("baz", VObject [])]) /\
    objectMatchesSchema R σ S (VObject [("baz", VNumber 0)]) = Return (VBoolean true) /\
    objectMatchesSchema R σ S (VObject [("baz", VObject [])]) = Return (VBoolean false).
Proof.
  intros Hmarker Hbiz. pose proof (Hmarker ObjectPrototype) as Hobject.
  eexists _, _. split; [reflexivity|].
  set (σ := snd (SchemaTypes.number VUndefined initialStore)).
  assert (Hleaf : get R σ numberValidator "_isSchemaType" = Return (VBoolean true))
    by (vm_compute; reflexivity).
  split; [|split; [|split]].
  - apply valid_fields; [reflexivity | discriminate |].
    apply List.Forall_cons; [|apply List.Forall_nil].
    apply valid_fields; [reflexivity | discriminate |].
    apply List.Forall_cons; [|apply List.Forall_nil].
    now apply valid_marked with (marker := VBoolean true).
  - apply agreeOnKeys_object. apply List.Forall_cons; [|apply List.Forall_nil].
    exists (VNumber 0), (VObject []). split; [reflexivity|]. split; [reflexivity|].
    apply agreeOnKeys_object. apply List.Forall_cons; [|apply List.Forall_nil].
    exists VUndefined, VUndefined. split; [reflexivity|]. split.
    + unfold specifiedField, get. simpl. now rewrite Hbiz.
    + apply agreeOnKeys_same.
  - vm_compute in Hobject. vm_compute. rewrite Hobject. reflexivity.
  - vm_compute in Hobject, Hbiz. vm_compute. rewrite Hobject, Hbiz. reflexivity.
Qed.

Lemma values_that_agree_match_differently_witness :
  unmarked bare /\
  inherited bare ObjectPrototype "biz" = VUndefined /\
  exists S σ,
    nestedRequiredNumber bare initialStore = (Return S, σ) /\
    validSchema bare σ S /\
    agreeOnKeys bare σ S (VObject [("baz", VNumber 0)]) (VObject [("baz", VObject [])]) /\
    objectMatchesSchema bare σ S (VObject [("baz", VNumber 0)]) = Return (VBoolean true) /\
    objectMatchesSchema bare σ S (VObject [("baz", VObject [])]) = Return (VBoolean false).
Proof.
  assert (H1 : unmarked bare) by (intros p; reflexivity).
  assert (H2 : inherited bare ObjectPrototype "biz" = VUndefined) by reflexivity.
  split; [exact H1|]. split; [exact H2|].
  apply (values_that_agree_match_differently bare H1 H2).
Defined.

(** ** The registry *)

Lemma mbind_returns {A B : Type} (m : M A) (k : A -> M B) (σ σ' : store) (a : A) :
  m σ = (Return a, σ') -> mbind m k σ = k a σ'.
Proof. intros H. unfold mbind. now rewrite H. Qed.

Lemma mbind_throws {A B : Type} (m : M A) (k : A -> M B) (σ : store) (e : exception) :
  fst (m σ) = Throw e -> fst (mbind m k σ) = Throw e.
Proof.
  unfold mbind. destruct (m σ) as [[a|e'] σ']; simpl; intros H;
    [discriminate | congruence].
Qed.

Lemma fobjectOf_write (id : loc) (o : fobject) (σ : store) :
  fobjectOf (write id o σ) id = o.
Proof. unfold fobjectOf, write. simpl. now rewrite lookup_insert_eq. Qed.

Lemma fobjectOf_write_other (id id' : loc) (o : fobject) (σ : store) :
  id <> id' -> fobjectOf (write id o σ) id' = fobjectOf σ id'.
Proof. intros H. unfold fobjectOf, write. simpl. now rewrite lookup_insert_ne. Qed.

Lemma assoc_setProperty (key : string) (x : value) (ps : props) :
  assoc key (setProperty key x ps) = Some x.
Proof.
  induction ps as [|[k y] ps IH]; simpl.
  - now rewrite String.eqb_refl.
  - destruct (k =? key) eqn:E; simpl; rewrite E; [reflexivity | assumption].
Qed.

Lemma typeof_undefined (v : value) : (typeof v =? "undefined") = isUndefined v.
Proof. now destruct v. Qed.

Lemma typeof_string (v : value) : (typeof v =? "string") = isString v.
Proof. now destruct v. Qed.

(** What a factory made by [getOptionalSchemaTypeFactory] from a function
    returns: a new optional validator, whose [isRequired] is the function
    the factory was made from. *)
Lemma getOptionalSchemaTypeFactory_returns
  (R : realm) (id : loc) (c : code) (typeName : string) (opts : value) (σ : store) :
  exists σ',
    getOptionalSchemaTypeFactory (VFunction id c) typeName opts σ =
      (Return (VFunction (next σ) (OptionalValidator (VFunction id c))), σ') /\
    get R σ' (VFunction (next σ) (OptionalValidator (VFunction id c))) "isRequired" =
      Return (VFunction id c).
Proof.
  eexists. split; [reflexivity|].
  unfold get, ownProperty, ownEntries. rewrite fobjectOf_write. simpl.
  now rewrite assoc_setProperty.
Qed.

(** *** C8.  The schema type that [string] makes accepts undefined and the
    strings and nothing else; its [isRequired] accepts the strings and
    nothing else.  This holds in every later store. *)
Theorem string_schema_type_accepts (R : realm) (opts : value) (σ : store) :
  exists s required σ',
    SchemaTypes.string opts σ = (Return s, σ') /\
    get R σ' s "isRequired" = Return required /\
    forall σ'' v,
      call R σ'' s v = Return (VBoolean (isUndefined v || isString v)) /\
      call R σ'' required v = Return (VBoolean (isString v)).
Proof.
  destruct (getOptionalSchemaTypeFactory_returns R 1 (PrimitiveValidator "string")
              "string" opts σ) as (σ' & Hs & Hr).
  eexists _, _, σ'. split; [exact Hs|]. split; [exact Hr|].
  intros σ'' v. split.
  - unfold call. simpl. unfold getPrimitiveValidator.
    rewrite typeof_undefined, typeof_string. now destruct (isUndefined v).
  - unfold call. simpl. unfold getPrimitiveValidator. now rewrite typeof_string.
Qed.

(** [shape] never returns: [isValidShape] returns null when it does not
    throw, and [shape] takes null for a refusal. *)
Lemma shape_never_returns (R : realm) (shape : value) (σ : store) :
  fst (SchemaTypes.shape R shape σ) =
  Throw (match isValidShape R σ shape with
         | Throw e => e
         | Return _ =>
             Error ("Expected a valid shape, but got " +:+ JSON_stringify R shape)
         end).
Proof.
  unfold SchemaTypes.shape, mbind, reading.
  destruct (isValidShape R σ shape) as [r|e] eqn:H; [|reflexivity].
  assert (r = VNull) as ->.
  { unfold isValidShape in H. destruct (negb (isObject shape)); [discriminate|].
    eapply isValidSchema_returns_null; eauto. }
  reflexivity.
Qed.

(** Whatever its argument and the store, [shape] throws. *)
Lemma shape_always_throws (R : realm) (shape : value) (σ : store) :
  exists e, fst (SchemaTypes.shape R shape σ) = Throw e.
Proof. rewrite shape_never_returns. eauto. Qed.

(** *** C1.  [shape({a: string()})] throws: the shape is valid, and for a
    valid shape [isValidShape] returns null, which [shape] negates. *)
Theorem shape_of_a_valid_shape_throws (R : realm) :
  fst (shapeExample R initialStore) =
  Throw (Error ("Expected a valid shape, but got " +:+
                JSON_stringify R
                  (VObject [("a", VFunction 8 (OptionalValidator stringValidator))]))).
Proof.
  set (a := VFunction 8 (OptionalValidator stringValidator)).
  set (σ1 := snd (SchemaTypes.string VUndefined initialStore)).
  assert (E : SchemaTypes.string VUndefined initialStore = (Return a, σ1))
    by (vm_compute; reflexivity).
  assert (Hvalid : isValidShape R σ1 (VObject [("a", a)]) = Return VNull).
  { change (isValidSchema R σ1 (VObject [("a", a)]) EmptyString = Return VNull).
    apply isValidSchema_complete.
    apply valid_fields; [reflexivity | discriminate |].
    apply List.Forall_cons; [|apply List.Forall_nil]. simpl.
    apply valid_marked with (marker := VBoolean true); [|reflexivity].
    vm_compute. reflexivity. }
  unfold shapeExample. rewrite (mbind_returns _ _ _ _ _ E).
  apply mbind_throws. now rewrite shape_never_returns, Hvalid.
Qed.

(** *** C2.  Against [{n: number().isRequired}] the number 0 matches: the
    guard [testObject && testObject[key]] hands the falsy 0 itself to the
    field, where the field should be absent. *)
Theorem zero_matches_a_required_number_field (R : realm) :
  unmarked R ->
  fst (requiredNumberOfZero R initialStore) = Return (VBoolean true).
Proof.
  intros H. pose proof (H ObjectPrototype) as H'.
  vm_compute in H'. vm_compute. rewrite H'. reflexivity.
Qed.

Lemma zero_matches_a_required_number_field_witness :
  unmarked bare /\
  fst (requiredNumberOfZero bare initialStore) = Return (VBoolean true).
Proof.
  assert (H : unmarked bare) by (intros p; reflexivity).
  split; [exact H|].
  apply (zero_matches_a_required_number_field bare H).
Defined.

(** *** C4.  After [a = string({x: 1}); b = string({x: 2})] the functions
    [a.isRequired] and [b.isRequired] are one function object, and [x]
    read on [a.isRequired] went from 1 to 2; [x] read on [a] is still 1. *)
Theorem string_twice_shares_the_required_variant (R : realm) :
  fst (stringTwice R initialStore) =
  Return {| a_x_after := VNumber 1;
            a_isRequired := stringValidator;
            b_isRequired := stringValidator;
            a_isRequired_x_before := VNumber 1;
            a_isRequired_x_after := VNumber 2 |}.
Proof. vm_compute. reflexivity. Qed.

(** *** C5.  The mapping [{_isSchemaType: string()}] passes [isValidSchema]
    and is then called like a leaf: the match throws for every value. *)
Theorem marker_named_field_throws (R : realm) (v : value) :
  fst (markerNamedField R v initialStore) =
  Throw (TypeError (NotAFunction
    (VObject [("_isSchemaType", VFunction 8 (OptionalValidator stringValidator))]))).
Proof. vm_compute. reflexivity. Qed.

(** [arrayOf] does not look at its element schema: the schema type is made,
    and the error surfaces when it is applied to an array with an
    element. *)
Lemma arrayOf_invalid_element_throws :
  fst (arrayOfEmptyObject bare initialStore) = Throw (Error expectedValidSchema).
Proof. vm_compute. reflexivity. Qed.

(** ** What a factory call writes *)

Lemma fobjectOf_newFunction (σ : store) (id n : loc) :
  id <> next σ ->
  fobjectOf {| objects := delete (next σ) (objects σ); next := n |} id = fobjectOf σ id.
Proof.
  intros H. unfold fobjectOf. simpl.
  rewrite lookup_delete_ne; [reflexivity | congruence].
Qed.

(** A factory call writes the new optional validator and the function the
    factory was made from; every other function object keeps its
    [__proto__] and its own properties. *)
Lemma factory_frame
  (validator : value) (typeName : string) (opts : value) (σ : store) (id : loc) :
  id <> next σ ->
  (forall c, validator <> VFunction id c) ->
  fobjectOf (snd (getOptionalSchemaTypeFactory validator typeName opts σ)) id =
  fobjectOf σ id.
Proof.
  intros Hnew Hval.
  assert (Hne : next σ <> id) by congruence.
  unfold getOptionalSchemaTypeFactory, mbind.
  destruct validator as [| | | | | | | |id0 c0]; simpl;
    try (rewrite fobjectOf_write_other by assumption;
         now apply fobjectOf_newFunction).
  assert (id0 <> id) by (intros ->; now apply (Hval c0)).
  rewrite !fobjectOf_write_other by assumption.
  now apply fobjectOf_newFunction.
Qed.

(** After [number({x: 1})] the call [string({x: 2})] leaves the validator
    of [number], which carries the options of the first call, as it is. *)
Lemma factory_frame_witness :
  4 <> next (snd (SchemaTypes.number (VObject [("x", VNumber 1)]) initialStore)) /\
  (forall c, stringValidator <> VFunction 4 c) /\
  proto (fobjectOf (snd (SchemaTypes.number (VObject [("x", VNumber 1)]) initialStore)) 4) =
    Some [("_isSchemaType", VBoolean true); ("_type", VString "number");
          ("x", VNumber 1)] /\
  fobjectOf (snd (SchemaTypes.string (VObject [("x", VNumber 2)])
                    (snd (SchemaTypes.number (VObject [("x", VNumber 1)]) initialStore))))
    4 =
  fobjectOf (snd (SchemaTypes.number (VObject [("x", VNumber 1)]) initialStore)) 4.
Proof.
  assert (H1 : 4 <> next (snd (SchemaTypes.number (VObject [("x", VNumber 1)])
                                 initialStore))) by (simpl; lia).
  assert (H2 : forall c, stringValidator <> VFunction 4 c)
    by (intros c; unfold stringValidator; congruence).
  split; [exact H1|]. split; [exact H2|]. split; [vm_compute; reflexivity|].
  apply (factory_frame stringValidator "string" (VObject [("x", VNumber 2)])
           (snd (SchemaTypes.number (VObject [("x", VNumber 1)]) initialStore))
           4 H1 H2).
Defined.

(** ** The paths left out of the model are not taken *)

Section Modelled.
Variable R : realm.
Variable σ : store.
Hypothesis foreign_modelled : forall n v, foreign R n v <> Throw Unmodelled.

Lemma every_modelled (predicate : value -> result value) (l : list value) :
  (forall el, predicate el <> Throw Unmodelled) ->
  every predicate l <> Throw Unmodelled.
Proof.
  intros Hp. induction l as [|el l IH]; simpl; [discriminate|].
  destruct (predicate el) as [r|e] eqn:E; simpl.
  - destruct (truthy r); [assumption | discriminate].
  - intros H. apply (Hp el). congruence.
Qed.

Lemma inner_modelled_step (S : value) :
  children (fun child => forall v location,
              isValidSchema R σ child location = Return VNull ->
              objectMatchesSchemaInner R σ child v <> Throw Unmodelled) S ->
  (forall v, call R σ S v <> Throw Unmodelled) ->
  forall v location,
    isValidSchema R σ S location = Return VNull ->
    objectMatchesSchemaInner R σ S v <> Throw Unmodelled.
Proof.
  intros IH Hcall v location Hv.
  rewrite isValidSchema_eq in Hv. rewrite objectMatchesSchemaInner_eq.
  destruct (get R σ S "_isSchemaType") as [m|] eqn:Hm; [|discriminate].
  cbn [bind] in *. destruct (truthy m); [apply Hcall|].
  destruct (_ && _) eqn:Hc; [|discriminate].
  apply mapping_entries in Hc as (Hty & Hne & He). rewrite He in Hv.
  apply bind_Return in Hv as (rs & Hrs & _). apply mapEntries_Return in Hrs.
  pose proof (children_entries σ _ _ IH Hty) as IH'.
  assert (Hfields : forall e,
    mapEntries (fun key child =>
                  field <- guardedGet R σ v key ;;
                  objectMatchesSchemaInner R σ child field) (ownEntries σ S) = Throw e ->
    e <> Unmodelled).
  { intros e E. apply mapEntries_Throw in E as (key & child & Hin & E).
    rewrite List.Forall_forall in IH', Hrs.
    destruct (Hrs _ Hin) as (r & Hr).
    pose proof (isValidSchema_returns_null _ _ _ _ _ Hr). subst r.
    destruct (guardedGet R σ v key) as [field|e'] eqn:Hf; simpl in E.
    - intros ->. now apply (IH' _ Hin field _ Hr).
    - injection E as <-. rewrite (guardedGet_Throw R σ _ _ _ Hf). discriminate. }
  assert (Hbind : forall r,
    r = mapEntries (fun key child =>
                      field <- guardedGet R σ v key ;;
                      objectMatchesSchemaInner R σ child field) (ownEntries σ S) ->
    (matches <- r ;; Return (fold_left and_ matches (VBoolean true))) <>
    Throw Unmodelled).
  { intros [ms|e] Hr; simpl; [discriminate|].
    intros Heq. injection Heq as ->. symmetry in Hr. now apply (Hfields _ Hr). }
  destruct S; try (simpl in *; congruence); now apply Hbind.
Qed.

(** After [isValidSchema] has accepted a schema, neither the matcher nor
    the functions it calls reach a path outside the model. *)
Lemma matcher_modelled (S : value) :
  (forall v location,
     isValidSchema R σ S location = Return VNull ->
     objectMatchesSchemaInner R σ S v <> Throw Unmodelled) /\
  (forall v, call R σ S v <> Throw Unmodelled).
Proof.
  induction S using value_code_ind
    with (Q := fun c => forall v, run R σ c v <> Throw Unmodelled).
  1-8: (split; [apply inner_modelled_step; simpl; auto|]; try discriminate).
  - eapply Forall_impl; [exact H|]. now intros kv [Hk _].
  - eapply Forall_impl; [exact H|]. now intros kv [Hk _].
  - split; [apply inner_modelled_step; simpl; auto|]. intros v. apply IHS.
  - discriminate.
  - discriminate.
  - discriminate.
  - discriminate.
  - discriminate.
  - (* isArrayOfType *)
    intros v. rewrite run_IsArrayOfType. unfold isArrayOfType.
    destruct (Array_isArray v); [|discriminate].
    apply every_modelled. intros el. unfold objectMatchesSchema, validated.
    destruct (isValidSchema R σ S EmptyString) as [r|] eqn:E; [|discriminate].
    pose proof (isValidSchema_returns_null _ _ _ _ _ E). subst r.
    destruct IHS as [Hinner _]. now apply (Hinner el _ E).
  - (* shape *)
    intros v. rewrite run_ShapeValidator. unfold objectMatchesSchema, validated.
    destruct (isValidSchema R σ S EmptyString) as [r|] eqn:E; [|discriminate].
    pose proof (isValidSchema_returns_null _ _ _ _ _ E). subst r.
    destruct IHS as [Hinner _]. now apply (Hinner v _ E).
  - (* getOptionalValidator *)
    intros v. rewrite run_OptionalValidator. unfold getOptionalValidator.
    destruct (typeof v =? "undefined"); [discriminate | apply IHS].
  - (* a function of the caller *)
    intros v. simpl. apply foreign_modelled.
Qed.

Lemma objectMatchesSchema_modelled (S v : value) :
  objectMatchesSchema R σ S v <> Throw Unmodelled.
Proof.
  unfold objectMatchesSchema, validated.
  destruct (isValidSchema R σ S EmptyString) as [r|] eqn:E; [|discriminate].
  pose proof (isValidSchema_returns_null _ _ _ _ _ E). subst r.
  destruct (matcher_modelled S) as [Hinner _]. now apply (Hinner v _ E).
Qed.
End Modelled.

(** ** The repository's tests, run on the model *)

(** objectMatchesSchema(): "should return true when the test matches" and
    "should return false when the test fails". *)
Lemma test_objectMatchesSchema :
  fst (matchValidSchema bare validSchemaInstances initialStore) =
    Return (map (fun _ => VBoolean true) validSchemaInstances) /\
  fst (matchValidSchema bare invalidInstances initialStore) =
    Return (map (fun _ => VBoolean false) invalidInstances).
Proof. split; vm_compute; reflexivity. Qed.

(** isArrayOfType(): an array of valid instances, an array with invalid
    instances, and a value that is not an array. *)
Lemma test_isArrayOfType :
  fst (arrayOfValidSchema bare (VArray validSchemaInstances) initialStore) =
    Return (VBoolean true) /\
  fst (arrayOfValidSchema bare (VArray (validSchemaInstances ++ invalidInstances))
         initialStore) = Return (VBoolean false) /\
  fst (arrayOfValidSchema bare (VNumber 0) initialStore) = Return (VBoolean false).
Proof. repeat split; vm_compute; reflexivity. Qed.

(** [arrayOf(number())()] on [1, 2, 3], on [1, 'x', 3] and on 5. *)
Lemma arrayOf_numbers :
  fst (arrayOfNumbers bare (VArray [VNumber 1; VNumber 2; VNumber 3]) initialStore) =
    Return (VBoolean true) /\
  fst (arrayOfNumbers bare (VArray [VNumber 1; VString "x"; VNumber 3]) initialStore) =
    Return (VBoolean false) /\
  fst (arrayOfNumbers bare (VNumber 5) initialStore) = Return (VBoolean false).
Proof. repeat split; vm_compute; reflexivity. Qed.

(** isValidShape(): null for a plain object that is a valid schema, an
    error for a schema type, for [{foo: 'bar'}], for [{}] and for values
    that are not objects. *)
Lemma test_isValidShape :
  fst (shapeOfValidSchema bare initialStore) = Return VNull /\
  fst (shapeOfSchemaType bare initialStore) =
    Throw (Error "Expected schema to be an object, but got function") /\
  isValidShape bare initialStore (VObject [("foo", VString "bar")]) =
    Throw (Error "(At .foo): Expected a SchemaType, but got bar:string") /\
  isValidShape bare initialStore (VObject []) =
    Throw (Error "(At ): Expected a SchemaType, but got [object Object]:object") /\
  isValidShape bare initialStore (VNumber nan) =
    Throw (Error "Expected schema to be an object, but got number") /\
  isValidShape bare initialStore (VString "foo") =
    Throw (Error "Expected schema to be an object, but got string") /\
  isValidShape bare initialStore VUndefined =
    Throw (Error "Expected schema to be an object, but got undefined").
Proof. repeat split; vm_compute; reflexivity. Qed.

(** getOptionalValidator(): undefined is accepted, every other value is
    handed to the validator. *)
Lemma getOptionalValidator_spec (R : realm) (σ : store) (p v : value) :
  getOptionalValidator R σ p VUndefined = Return (VBoolean true) /\
  (v <> VUndefined -> getOptionalValidator R σ p v = call R σ p v).
Proof.
  split; [reflexivity|]. intros H. unfold getOptionalValidator.
  rewrite typeof_undefined. destruct v; try reflexivity. congruence.
Qed.

(** ** Where the match is a boolean *)

Lemma and_boolean (ms : list value) (b : bool) :
  Forall (fun m => isBoolean m = true) ms ->
  isBoolean (fold_left and_ ms (VBoolean b)) = true.
Proof.
  intros H. revert b. induction H as [|m ms Hm _ IH]; intros b; [reflexivity|].
  simpl. destruct m; try discriminate.
  unfold and_. simpl. destruct b; apply IH.
Qed.

Lemma every_boolean (predicate : value -> result value) (l : list value) :
  (forall el, exists b, predicate el = Return (VBoolean b)) ->
  exists b, every predicate l = Return (VBoolean b).
Proof.
  intros Hp. induction l as [|el l IH]; simpl; [eauto|].
  destruct (Hp el) as (b & ->). simpl. destruct b; eauto.
Qed.

Lemma mapEntries_booleans (f : string -> value -> result value) (ps : props) :
  Forall (fun kv => exists b, f (fst kv) (snd kv) = Return (VBoolean b)) ps ->
  exists ms, mapEntries f ps = Return ms /\ Forall (fun m => isBoolean m = true) ms.
Proof.
  induction 1 as [|[key child] ps (b & Hb) _ (ms & Hms & Hall)]; simpl; [eauto|].
  simpl in Hb. rewrite Hb. simpl. rewrite Hms. simpl.
  eexists. split; [reflexivity|]. constructor; auto.
Qed.

Section LibrarySchemas.
Variable R : realm.
Variable σ : store.

Lemma librarySchema_valid (S : value) :
  librarySchema R σ S -> validSchema R σ S.
Proof.
  induction S as [S IH] using value_children_ind. intros H.
  inversion H as [id c m Hm Ht Hc | ps m Hm Ht Hne Hkeys Hall]; subst.
  - eapply valid_marked; eauto.
  - apply valid_fields; [reflexivity | assumption |].
    simpl in *. rewrite List.Forall_forall in *. intros kv Hin.
    apply IH; auto.
Qed.

(** On a schema of the specification the matcher returns a boolean, and
    so does the code of its leaves. *)
Lemma library_matcher_boolean (S : value) :
  (librarySchema R σ S ->
   forall v, exists b, objectMatchesSchemaInner R σ S v = Return (VBoolean b)) /\
  (forall id c, S = VFunction id c -> libraryCode R σ c ->
   forall v, exists b, run R σ c v = Return (VBoolean b)).
Proof.
  induction S using value_code_ind
    with (Q := fun c => libraryCode R σ c ->
                 forall v, exists b, run R σ c v = Return (VBoolean b));
    try (split; [intros Hlib; now inversion Hlib | discriminate]).
  - (* mapping *)
    split; [|discriminate]. intros Hlib v.
    inversion Hlib as [| ps' m Hm Ht Hne Hkeys Hall]; subst.
    rewrite objectMatchesSchemaInner_eq, Hm. cbn [bind]. rewrite Ht.
    destruct (mapEntries_booleans
                (fun key child =>
                   field <- guardedGet R σ v key ;;
                   objectMatchesSchemaInner R σ child field) ps) as (ms & Hms & Hb).
    { rewrite List.Forall_forall in *. intros kv Hin.
      destruct (guardedGet_returns R σ v (fst kv) (Hkeys kv Hin)) as (field & Hf).
      rewrite Hf. simpl. apply H; auto. }
    simpl. rewrite Hms. simpl.
    pose proof (and_boolean ms true Hb) as Hfold.
    destruct (fold_left and_ ms (VBoolean true)); try discriminate. eauto.
  - (* leaf *)
    split.
    + intros Hlib v. inversion Hlib as [id' c' m Hm Ht Hc |]; subst.
      rewrite objectMatchesSchemaInner_eq, Hm. cbn [bind]. rewrite Ht.
      now apply IHS.
    + intros id' c' Heq. injection Heq as -> ->. exact IHS.
  - simpl. eauto.
  - simpl. eauto.
  - simpl. eauto.
  - simpl. eauto.
  - simpl. eauto.
  - (* isArrayOfType *)
    intros Hlib v. inversion Hlib; subst.
    rewrite run_IsArrayOfType. unfold isArrayOfType.
    destruct (Array_isArray v); [|eauto].
    apply every_boolean. intros el. unfold objectMatchesSchema, validated.
    rewrite (isValidSchema_complete R σ S (librarySchema_valid S H0)).
    now apply IHS.
  - (* shape *)
    intros Hlib v. inversion Hlib; subst. rewrite run_ShapeValidator.
    unfold objectMatchesSchema, validated.
    rewrite (isValidSchema_complete R σ S (librarySchema_valid S H0)).
    now apply IHS.
  - (* getOptionalValidator *)
    intros Hlib v. inversion Hlib as [| | | | | | | id c Hc]; subst.
    rewrite run_OptionalValidator. unfold getOptionalValidator.
    destruct (typeof v =? "undefined"); [eauto|].
    destruct IHS as [_ IHc]. now apply (IHc id c eq_refl Hc).
  - (* a function of the caller *)
    intros Hlib. inversion Hlib.
Qed.

(** On a schema of the specification, no field of which is named [caller]
    or [arguments], [objectMatchesSchema] returns a boolean for every
    value, and throws for none. *)
Lemma objectMatchesSchema_boolean (S v : value) :
  librarySchema R σ S ->
  exists b, objectMatchesSchema R σ S v = Return (VBoolean b).
Proof.
  intros H. unfold objectMatchesSchema, validated.
  rewrite (isValidSchema_complete R σ S (librarySchema_valid S H)).
  now apply library_matcher_boolean.
Qed.
End LibrarySchemas.

Lemma objectMatchesSchema_boolean_witness :
  librarySchema bare (snd (SchemaTypes.string VUndefined initialStore))
    (VObject [("a", VFunction 8 (OptionalValidator stringValidator))]) /\
  exists b,
    objectMatchesSchema bare (snd (SchemaTypes.string VUndefined initialStore))
      (VObject [("a", VFunction 8 (OptionalValidator stringValidator))])
      (VNumber 0) = Return (VBoolean b).
Proof.
  assert (H : librarySchema bare (snd (SchemaTypes.string VUndefined initialStore))
                (VObject [("a", VFunction 8 (OptionalValidator stringValidator))])).
  { apply library_mapping with (marker := VUndefined);
      [reflexivity | reflexivity | discriminate | |].
    { apply List.Forall_cons; [reflexivity | apply List.Forall_nil]. }
    apply List.Forall_cons; [|apply List.Forall_nil]. simpl.
    apply library_leaf with (marker := VBoolean true);
      [vm_compute; reflexivity | reflexivity |].
    apply library_optional. apply library_primitive. }
  split; [exact H|].
  apply (objectMatchesSchema_boolean bare
           (snd (SchemaTypes.string VUndefined initialStore))
           (VObject [("a", VFunction 8 (OptionalValidator stringValidator))])
           (VNumber 0) H).
Defined.

(** The condition on the names of the fields is needed: against
    [{caller: any()}] a function of strict code makes the match throw, as
    the read of its [caller] does. *)
Lemma caller_field_throws :
  fst (callerOfFunction bare (VFunction 8 (Foreign 0))
         {| objects := ∅; next := 9 |}) =
  Throw (TypeError (RestrictedProperty "caller" (VFunction 8 (Foreign 0)))).
Proof. vm_compute. reflexivity. Qed.

(** * Further properties *)

(** ** The factories of the registry *)

(** The optional schema type of a factory accepts undefined and otherwise
    answers as the validator it was made from, which is its [isRequired];
    this holds in every later store. *)
Theorem factory_optional_and_required
  (R : realm) (id : loc) (c : code) (typeName : string) (opts : value) (σ : store) :
  exists s σ',
    getOptionalSchemaTypeFactory (VFunction id c) typeName opts σ = (Return s, σ') /\
    get R σ' s "isRequired" = Return (VFunction id c) /\
    forall σ'' v,
      call R σ'' s VUndefined = Return (VBoolean true) /\
      (v <> VUndefined -> call R σ'' s v = call R σ'' (VFunction id c) v).
Proof.
  destruct (getOptionalSchemaTypeFactory_returns R id c typeName opts σ)
    as (σ' & Hs & Hr).
  eexists _, σ'. split; [exact Hs|]. split; [exact Hr|].
  intros σ'' v. split; [reflexivity|]. intros Hv.
  unfold call. simpl. rewrite typeof_undefined.
  destruct v; try reflexivity. congruence.
Qed.

Lemma factory_accepts
  (id : loc) (c : code) (typeName : string) (accepted : value -> bool) :
  (forall R σ v, run R σ c v = Return (VBoolean (accepted v))) ->
  acceptsExactly (getOptionalSchemaTypeFactory (VFunction id c) typeName) accepted.
Proof.
  intros Hrun R opts σ.
  destruct (getOptionalSchemaTypeFactory_returns R id c typeName opts σ)
    as (σ' & Hs & Hr).
  eexists _, _, σ'. split; [exact Hs|]. split; [exact Hr|].
  intros σ'' v. unfold call. simpl. rewrite typeof_undefined, Hrun.
  split; [now destruct (isUndefined v) | reflexivity].
Qed.

(** What the schema types of the registry accept: [any] every defined
    value, null included; [boolean], [function] and [number] the values of
    that type, NaN and the infinities being numbers; [date] the dates with
    a time; [array] the arrays; [object] the plain objects, not null, not
    arrays, not dates, not functions. *)
Theorem base_schema_types_accept :
  acceptsExactly SchemaTypes.any (fun v => negb (isUndefined v)) /\
  acceptsExactly SchemaTypes.boolean isBoolean /\
  acceptsExactly SchemaTypes.function isFunction /\
  acceptsExactly SchemaTypes.number isNumber /\
  acceptsExactly SchemaTypes.date isDateWithTime /\
  acceptsExactly SchemaTypes.array Array_isArray /\
  acceptsExactly SchemaTypes.object isPlainObject.
Proof.
  repeat split; apply factory_accepts; intros R σ v; now destruct v.
Qed.

(** ** isValidShape *)

(** [isValidShape] returns null exactly on the plain objects that are
    valid schemas, and returns nothing else; a value that is not a plain
    object (a schema type, an array, null, a primitive) is refused with
    its type in the message, valid schema or not. *)
Theorem isValidShape_characterisation (R : realm) (σ : store) (schema : value) :
  (isValidShape R σ schema = Return VNull <->
   (exists ps, schema = VObject ps) /\ validSchema R σ schema) /\
  ((forall ps, schema <> VObject ps) ->
   isValidShape R σ schema =
   Throw (Error ("Expected schema to be an object, but got " +:+ typeof schema))) /\
  (forall r, isValidShape R σ schema = Return r -> r = VNull).
Proof.
  split; [|split].
  - split.
    + intros H. destruct schema; try discriminate.
      split; [eauto|]. eapply isValidSchema_sound. exact H.
    + intros [(ps & ->) Hv]. now apply isValidSchema_complete.
  - intros H. destruct schema; try reflexivity. now destruct (H props0).
  - intros r H. destruct schema; try discriminate.
    eapply isValidSchema_returns_null. exact H.
Qed.

(** ** isArrayOfType *)

Lemma every_Return_false (predicate : value -> result value) (l : list value) :
  every predicate l = Return (VBoolean false) <->
  exists l1 el l2 r,
    l = l1 ++ el :: l2 /\
    Forall (fun x => exists r, predicate x = Return r /\ truthy r = true) l1 /\
    predicate el = Return r /\ truthy r = false.
Proof.
  induction l as [|x l IH]; simpl.
  - split; [discriminate|]. intros (l1 & el & l2 & r & H & _). now destruct l1.
  - split.
    + destruct (predicate x) as [r|e] eqn:Hp; simpl; [|discriminate].
      destruct (truthy r) eqn:Ht.
      * intros H. apply IH in H as (l1 & el & l2 & r' & -> & Hall & Hel & Hf).
        exists (x :: l1), el, l2, r'. repeat split; auto.
        constructor; eauto.
      * intros _. exists [], x, l, r. repeat split; auto.
    + intros (l1 & el & l2 & r & Heq & Hall & Hel & Hf).
      destruct l1 as [|y l1]; simpl in Heq; injection Heq as -> ->.
      * rewrite Hel. simpl. now rewrite Hf.
      * inversion Hall as [|? ? (ry & Hy & Hty) Hall']; subst.
        rewrite Hy. simpl. rewrite Hty. apply IH. eauto 10.
Qed.

Lemma every_Throw (predicate : value -> result value) (l : list value) (e : exception) :
  every predicate l = Throw e <->
  exists l1 el l2,
    l = l1 ++ el :: l2 /\
    Forall (fun x => exists r, predicate x = Return r /\ truthy r = true) l1 /\
    predicate el = Throw e.
Proof.
  induction l as [|x l IH]; simpl.
  - split; [discriminate|]. intros (l1 & el & l2 & H & _). now destruct l1.
  - split.
    + destruct (predicate x) as [r|e'] eqn:Hp; simpl.
      * destruct (truthy r) eqn:Ht; [|discriminate].
        intros H. apply IH in H as (l1 & el & l2 & -> & Hall & Hel).
        exists (x :: l1), el, l2. repeat split; auto.
        constructor; eauto.
      * intros H. injection H as ->. exists [], x, l. repeat split; auto.
    + intros (l1 & el & l2 & Heq & Hall & Hel).
      destruct l1 as [|y l1]; simpl in Heq; injection Heq as -> ->.
      * rewrite Hel. reflexivity.
      * inversion Hall as [|? ? (ry & Hy & Hty) Hall']; subst.
        rewrite Hy. simpl. rewrite Hty. apply IH. eauto 10.
Qed.

(** On an array the first element that does not match decides: the answer
    is false when its match returns a falsy value and the exception of its
    match when that throws; the elements after it are not looked at. *)
Theorem isArrayOfType_first_mismatch_decides
  (R : realm) (σ : store) (S : value) (l : list value) :
  (isArrayOfType R σ S (VArray l) = Return (VBoolean false) <->
   exists l1 el l2 r,
     l = l1 ++ el :: l2 /\
     Forall (matchesSchema R σ S) l1 /\
     objectMatchesSchema R σ S el = Return r /\ truthy r = false) /\
  (forall e,
     isArrayOfType R σ S (VArray l) = Throw e <->
     exists l1 el l2,
       l = l1 ++ el :: l2 /\
       Forall (matchesSchema R σ S) l1 /\
       objectMatchesSchema R σ S el = Throw e).
Proof.
  split; [apply every_Return_false | intros e; apply every_Throw].
Qed.

(** The element schema is not looked at before there is an element: with an
    invalid element schema the empty array is accepted, and every other
    array makes the predicate throw the error of [objectMatchesSchema]. *)
Theorem isArrayOfType_invalid_element_schema
  (R : realm) (σ : store) (S : value) (e : exception) :
  isValidSchema R σ S EmptyString = Throw e ->
  isArrayOfType R σ S (VArray []) = Return (VBoolean true) /\
  forall el l,
    isArrayOfType R σ S (VArray (el :: l)) = Throw (Error expectedValidSchema).
Proof.
  intros H. split; [reflexivity|]. intros el l.
  unfold isArrayOfType. simpl. unfold objectMatchesSchema, validated.
  now rewrite H.
Qed.

Lemma isArrayOfType_invalid_element_schema_witness :
  isValidSchema bare initialStore (VObject []) EmptyString =
    Throw (Error (invalidSchemaMessage bare (VObject []) EmptyString)) /\
  isArrayOfType bare initialStore (VObject []) (VArray []) = Return (VBoolean true) /\
  forall el l,
    isArrayOfType bare initialStore (VObject []) (VArray (el :: l)) =
    Throw (Error expectedValidSchema).
Proof.
  split; [reflexivity|].
  apply (isArrayOfType_invalid_element_schema bare initialStore (VObject [])
           (Error (invalidSchemaMessage bare (VObject []) EmptyString))).
  reflexivity.
Defined.

(** ** Options and metadata *)

Lemma assoc_None_not_In (key : string) (ps : props) :
  ~ In key (map fst ps) -> assoc key ps = None.
Proof.
  induction ps as [|[k x] ps IH]; simpl; [reflexivity|]. intros H.
  destruct (k =? key) eqn:E.
  - apply String.eqb_eq in E. tauto.
  - apply IH. tauto.
Qed.

Lemma assoc_fold_setProperty_absent (key : string) (entries base : props) :
  assoc key entries = None ->
  assoc key (fold_left (fun acc kv => setProperty (fst kv) (snd kv) acc) entries base) =
  assoc key base.
Proof.
  revert base. induction entries as [|[k x] entries IH]; intros base H; [reflexivity|].
  simpl in *. destruct (k =? key) eqn:E; [discriminate|].
  rewrite IH by assumption. apply assoc_setProperty_other.
  apply String.eqb_neq in E. congruence.
Qed.

(** Writing the properties of an object with distinct keys and reading
    one back gives the value written. *)
Lemma assoc_fold_setProperty_present (key : string) (x : value) (entries base : props) :
  List.NoDup (map fst entries) ->
  In (key, x) entries ->
  assoc key (fold_left (fun acc kv => setProperty (fst kv) (snd kv) acc) entries base) =
  Some x.
Proof.
  revert base. induction entries as [|[k y] entries IH]; intros base Hnd Hin; [easy|].
  simpl in *. apply List.NoDup_cons_iff in Hnd as [Hk Hnd].
  destruct Hin as [Heq | Hin].
  - injection Heq as -> ->.
    rewrite assoc_fold_setProperty_absent by now apply assoc_None_not_In.
    apply assoc_setProperty.
  - now apply IH.
Qed.

Lemma setProperty_keys (key : string) (x : value) (ps : props) :
  map fst (setProperty key x ps) =
  if existsb (String.eqb key) (map fst ps) then map fst ps else map fst ps ++ [key].
Proof.
  induction ps as [|[k y] ps IH]; simpl; [reflexivity|].
  rewrite (String.eqb_sym key k).
  destruct (k =? key) eqn:E; simpl.
  - apply String.eqb_eq in E. now subst.
  - rewrite IH. now destruct (existsb _ _).
Qed.

Lemma setProperty_NoDup (key : string) (x : value) (ps : props) :
  List.NoDup (map fst ps) -> List.NoDup (map fst (setProperty key x ps)).
Proof.
  intros H. rewrite setProperty_keys.
  destruct (existsb _ _) eqn:E; [assumption|].
  apply List.NoDup_app;
    [assumption | constructor; [easy | constructor] |].
  intros k Hin Hk. simpl in Hk. destruct Hk as [<- | []].
  assert (existsb (String.eqb key) (map fst ps) = true); [|congruence].
  apply existsb_exists. exists key. split; [assumption | apply String.eqb_refl].
Qed.

Lemma fold_setProperty_NoDup (entries base : props) :
  List.NoDup (map fst base) ->
  List.NoDup (map fst (fold_left (fun acc kv => setProperty (fst kv) (snd kv) acc) entries base)).
Proof.
  revert base. induction entries as [|[k x] entries IH]; intros base H; [assumption|].
  simpl. apply IH. now apply setProperty_NoDup.
Qed.

Lemma In_setProperty (key : string) (x : value) (ps : props) :
  In (key, x) (setProperty key x ps).
Proof.
  induction ps as [|[k y] ps IH]; simpl; [auto|].
  destruct (k =? key) eqn:E; simpl; [|auto].
  apply String.eqb_eq in E. subst. auto.
Qed.

(** The object literal that [SchemaType] assigns, for plain options. *)
Lemma spread_plain (σ : store) (base ps : props) :
  spread σ base (VObject ps) =
  fold_left (fun acc kv => setProperty (fst kv) (snd kv) acc) ps base.
Proof. reflexivity. Qed.

(** Reading a property of a function whose [__proto__] has been assigned. *)
Lemma get_assigned_proto
  (R : realm) (σ : store) (id : loc) (c : code) (key : string) (ps os : props) :
  fobjectOf σ id = {| proto := Some ps; own := os |} ->
  assoc key os = None ->
  existsb (String.eqb key) functionIntrinsics = false ->
  restricted key && negb (strict c) = false ->
  get R σ (VFunction id c) key =
  Return (match assoc key ps with
          | Some x => x
          | None => inherited R ObjectPrototype key
          end).
Proof.
  intros Ho Hown Hin Hstrict.
  unfold get, ownProperty, poisoned, inheritedProperty, ownEntries.
  rewrite Ho. cbn [own proto]. now rewrite Hown, Hin, Hstrict.
Qed.

Lemma fobjectOf_new (σ : store) (n : loc) :
  fobjectOf {| objects := delete (next σ) (objects σ); next := n |} (next σ) = fresh.
Proof. unfold fobjectOf. simpl. now rewrite lookup_delete_eq. Qed.

(** What a factory call leaves on the optional schema type it returns. *)
Lemma factory_store_optional
  (id : loc) (c : code) (typeName : string) (opts : value) (ps : props) (σ : store) :
  orEmptyObject opts = VObject ps ->
  fobjectOf (snd (getOptionalSchemaTypeFactory (VFunction id c) typeName opts σ))
    (next σ) =
  {| proto := Some (fold_left (fun acc kv => setProperty (fst kv) (snd kv) acc) ps
                      [("_isSchemaType", VBoolean true); ("_type", VString typeName)]);
     own := [("isRequired", VFunction id c)] |}.
Proof.
  intros Ho. unfold getOptionalSchemaTypeFactory, mbind, SchemaType, newFunction.
  simpl. rewrite fobjectOf_write. rewrite Ho. simpl.
  destruct (Nat.eq_dec id (next σ)) as [-> | Hne].
  - rewrite !fobjectOf_write. simpl. now rewrite !fobjectOf_new.
  - rewrite fobjectOf_write_other by assumption.
    rewrite !fobjectOf_write. simpl. now rewrite !fobjectOf_new.
Qed.

(** What it leaves on the validator the factory was made from. *)
Lemma factory_store_required
  (id : loc) (c : code) (typeName : string) (opts : value) (ps : props) (σ : store) :
  orEmptyObject opts = VObject ps ->
  id <> next σ ->
  fobjectOf (snd (getOptionalSchemaTypeFactory (VFunction id c) typeName opts σ)) id =
  {| proto := Some (fold_left (fun acc kv => setProperty (fst kv) (snd kv) acc) ps
                      [("_isSchemaType", VBoolean true); ("_type", VString typeName)]);
     own := own (fobjectOf σ id) |}.
Proof.
  intros Ho Hne. unfold getOptionalSchemaTypeFactory, mbind, SchemaType, newFunction.
  simpl. rewrite fobjectOf_write_other by congruence.
  rewrite fobjectOf_write. rewrite Ho. simpl.
  rewrite fobjectOf_write_other by congruence.
  rewrite (fobjectOf_newFunction σ id) by assumption. reflexivity.
Qed.

Lemma assoc_In (key : string) (x : value) (ps : props) :
  assoc key ps = Some x -> In (key, x) ps.
Proof.
  induction ps as [|[k y] ps IH]; simpl; [discriminate|].
  destruct (k =? key) eqn:E; [|auto].
  apply String.eqb_eq in E. intros H. injection H as ->. subst. auto.
Qed.

(** The marker that a schema type carries after the factory call: the
    option of that name when there is one, true otherwise. *)
Lemma factory_marker
  (R : realm) (σ' : store) (id : loc) (c : code) (typeName : string)
  (ps os : props) :
  List.NoDup (map fst ps) ->
  fobjectOf σ' id =
    {| proto := Some (fold_left (fun acc kv => setProperty (fst kv) (snd kv) acc) ps
                        [("_isSchemaType", VBoolean true); ("_type", VString typeName)]);
       own := os |} ->
  assoc "_isSchemaType" os = None ->
  get R σ' (VFunction id c) "_isSchemaType" =
  Return (match assoc "_isSchemaType" ps with
          | Some marker => marker
          | None => VBoolean true
          end).
Proof.
  intros Hnd Ho Hown.
  rewrite (get_assigned_proto R σ' id c _ _ _ Ho Hown eq_refl eq_refl).
  destruct (assoc "_isSchemaType" ps) as [m|] eqn:E.
  - now rewrite (assoc_fold_setProperty_present _ m _ _ Hnd (assoc_In _ _ _ E)).
  - now rewrite assoc_fold_setProperty_absent.
Qed.

(** A function is a valid schema exactly when its marker is truthy. *)
Lemma isValidSchema_function
  (R : realm) (σ : store) (id : loc) (c : code) (location : string) (marker : value) :
  get R σ (VFunction id c) "_isSchemaType" = Return marker ->
  (isValidSchema R σ (VFunction id c) location = Return VNull <-> truthy marker = true).
Proof.
  intros Hm. rewrite isValidSchema_eq, Hm. simpl.
  destruct (truthy marker); split; congruence.
Qed.

(** The schema types that a factory makes are valid schemas unless the
    options carry a falsy [_isSchemaType], which takes the place of the
    marker.  For the required variant, which is the validator itself, this
    is so when the validator has no [_isSchemaType] of its own and the
    assignment of its [__proto__] is not shadowed. *)
Theorem factory_makes_valid_schemas
  (R : realm) (id : loc) (c : code) (typeName : string) (opts : value) (ps : props)
  (σ : store) (location : string) :
  orEmptyObject opts = VObject ps ->
  List.NoDup (map fst ps) ->
  assoc "_isSchemaType" (own (fobjectOf σ id)) = None ->
  shadowed (fobjectOf σ id) = false ->
  exists s required σ',
    getOptionalSchemaTypeFactory (VFunction id c) typeName opts σ = (Return s, σ') /\
    get R σ' s "isRequired" = Return required /\
    (isValidSchema R σ' s location = Return VNull <->
     match assoc "_isSchemaType" ps with
     | Some marker => truthy marker = true
     | None => True
     end) /\
    (isValidSchema R σ' required location = Return VNull <->
     isValidSchema R σ' s location = Return VNull).
Proof.
  intros Ho Hnd Hown _.
  destruct (getOptionalSchemaTypeFactory_returns R id c typeName opts σ)
    as (σ' & Hs & Hr).
  pose proof (factory_store_optional id c typeName opts ps σ Ho) as Hopt.
  rewrite Hs in Hopt. simpl in Hopt.
  pose proof (factory_marker R σ' (next σ) (OptionalValidator (VFunction id c))
                typeName ps _ Hnd Hopt eq_refl) as Hmarker.
  assert (Hreq : get R σ' (VFunction id c) "_isSchemaType" =
                 get R σ' (VFunction (next σ) (OptionalValidator (VFunction id c)))
                   "_isSchemaType").
  { rewrite Hmarker. destruct (Nat.eq_dec id (next σ)) as [-> | Hne].
    - exact (factory_marker R σ' (next σ) c typeName ps _ Hnd Hopt eq_refl).
    - pose proof (factory_store_required id c typeName opts ps σ Ho Hne) as Hval.
      rewrite Hs in Hval. simpl in Hval.
      exact (factory_marker R σ' id c typeName ps _ Hnd Hval Hown). }
  eexists _, _, σ'. split; [exact Hs|]. split; [exact Hr|]. split.
  - rewrite (isValidSchema_function R σ' _ _ location _ Hmarker).
    destruct (assoc "_isSchemaType" ps); [reflexivity | easy].
  - rewrite Hmarker in Hreq.
    rewrite (isValidSchema_function R σ' _ _ location _ Hreq).
    now rewrite (isValidSchema_function R σ' _ _ location _ Hmarker).
Qed.

(** After [string({x: 1})], the call [string({_isSchemaType: false})]
    makes a schema type and a required variant that are not valid
    schemas. *)
Lemma factory_makes_valid_schemas_witness :
  orEmptyObject (VObject [("_isSchemaType", VBoolean false)]) =
    VObject [("_isSchemaType", VBoolean false)] /\
  List.NoDup (map fst [("_isSchemaType", VBoolean false)]) /\
  assoc "_isSchemaType"
    (own (fobjectOf (snd (SchemaTypes.string (VObject [("x", VNumber 1)]) initialStore)) 1))
    = None /\
  shadowed (fobjectOf (snd (SchemaTypes.string (VObject [("x", VNumber 1)]) initialStore)) 1)
    = false /\
  exists s required σ',
    getOptionalSchemaTypeFactory (VFunction 1 (PrimitiveValidator "string")) "string"
      (VObject [("_isSchemaType", VBoolean false)])
      (snd (SchemaTypes.string (VObject [("x", VNumber 1)]) initialStore))
      = (Return s, σ') /\
    get bare σ' s "isRequired" = Return required /\
    (isValidSchema bare σ' s EmptyString = Return VNull <->
     match assoc "_isSchemaType" [("_isSchemaType", VBoolean false)] with
     | Some marker => truthy marker = true
     | None => True
     end) /\
    (isValidSchema bare σ' required EmptyString = Return VNull <->
     isValidSchema bare σ' s EmptyString = Return VNull).
Proof.
  assert (H1 : orEmptyObject (VObject [("_isSchemaType", VBoolean false)]) =
               VObject [("_isSchemaType", VBoolean false)]) by reflexivity.
  assert (H2 : List.NoDup (map fst [("_isSchemaType", VBoolean false)])).
  { apply List.NoDup_cons; [intros [] | constructor]. }
  assert (H3 : assoc "_isSchemaType"
                 (own (fobjectOf (snd (SchemaTypes.string (VObject [("x", VNumber 1)])
                                         initialStore)) 1)) = None)
    by (vm_compute; reflexivity).
  assert (H4 : shadowed (fobjectOf (snd (SchemaTypes.string (VObject [("x", VNumber 1)])
                                          initialStore)) 1) = false)
    by (vm_compute; reflexivity).
  split; [exact H1|]. split; [exact H2|]. split; [exact H3|]. split; [exact H4|].
  apply (factory_makes_valid_schemas bare 1 (PrimitiveValidator "string") "string"
           (VObject [("_isSchemaType", VBoolean false)])
           [("_isSchemaType", VBoolean false)]
           (snd (SchemaTypes.string (VObject [("x", VNumber 1)]) initialStore))
           EmptyString H1 H2 H3 H4).
Defined.

(** The options can be read back on the schema type, and [_type] is the
    name of the type unless an option of that name replaces it.  The own
    properties of the function come first: [isRequired], and what the
    language gives a function ([length], [name], [prototype]). *)
Theorem factory_options_readable
  (R : realm) (id : loc) (c : code) (typeName : string) (opts : value) (ps : props)
  (σ : store) :
  orEmptyObject opts = VObject ps ->
  List.NoDup (map fst ps) ->
  exists s σ',
    getOptionalSchemaTypeFactory (VFunction id c) typeName opts σ = (Return s, σ') /\
    (forall key x,
       In (key, x) ps ->
       key <> "isRequired" ->
       ~ In key functionIntrinsics ->
       get R σ' s key = Return x) /\
    (assoc "_type" ps = None -> get R σ' s "_type" = Return (VString typeName)).
Proof.
  intros Ho Hnd.
  destruct (getOptionalSchemaTypeFactory_returns R id c typeName opts σ)
    as (σ' & Hs & Hr).
  pose proof (factory_store_optional id c typeName opts ps σ Ho) as Hopt.
  rewrite Hs in Hopt. simpl in Hopt.
  eexists _, σ'. split; [exact Hs|]. split.
  - intros key x Hin Hreq Hintr.
    rewrite (get_assigned_proto R σ' _ _ key _ _ Hopt).
    + now rewrite (assoc_fold_setProperty_present _ x _ _ Hnd Hin).
    + cbn [assoc]. destruct ("isRequired" =? key) eqn:E; [|reflexivity].
      apply String.eqb_eq in E. congruence.
    + destruct (existsb _ _) eqn:E; [|reflexivity].
      apply existsb_exists in E as (k & Hk & E). apply String.eqb_eq in E.
      subst. contradiction.
    + apply andb_false_r.
  - intros Htype.
    rewrite (get_assigned_proto R σ' _ _ "_type" _ _ Hopt eq_refl eq_refl eq_refl).
    now rewrite assoc_fold_setProperty_absent.
Qed.

Lemma factory_options_readable_witness :
  orEmptyObject (VObject [("x", VNumber 1)]) = VObject [("x", VNumber 1)] /\
  List.NoDup (map fst [("x", VNumber 1)]) /\
  exists s σ',
    getOptionalSchemaTypeFactory (VFunction 1 (PrimitiveValidator "string")) "string"
      (VObject [("x", VNumber 1)]) initialStore = (Return s, σ') /\
    (forall key x,
       In (key, x) [("x", VNumber 1)] ->
       key <> "isRequired" ->
       ~ In key functionIntrinsics ->
       get bare σ' s key = Return x) /\
    (assoc "_type" [("x", VNumber 1)] = None ->
     get bare σ' s "_type" = Return (VString "string")).
Proof.
  assert (H1 : orEmptyObject (VObject [("x", VNumber 1)]) = VObject [("x", VNumber 1)])
    by reflexivity.
  assert (H2 : List.NoDup (map fst [("x", VNumber 1)])).
  { simpl. constructor; [simpl; tauto | constructor]. }
  split; [exact H1|]. split; [exact H2|].
  apply (factory_options_readable bare 1 (PrimitiveValidator "string") "string"
           (VObject [("x", VNumber 1)]) [("x", VNumber 1)] initialStore H1 H2).
Defined.

(** ** arrayOf *)

(** The parts of a call of [arrayOf(arrayElementType)(options)]: the
    validator it creates, the object literal it passes on, and the call of
    the factory made from the validator. *)
Lemma arrayOf_unfold (arrayElementType options : value) (σ : store) :
  SchemaTypes.arrayOf arrayElementType options σ =
  getOptionalSchemaTypeFactory (VFunction (next σ) (IsArrayOfType arrayElementType))
    "arrayOf"
    (VObject (setProperty "_elementType" arrayElementType
                (spread (snd (newFunction (IsArrayOfType arrayElementType) σ)) []
                   (orEmptyObject options))))
    (snd (newFunction (IsArrayOfType arrayElementType) σ)).
Proof. reflexivity. Qed.

(** [arrayOf] always returns a schema type.  The element schema can be
    read back as [_elementType], whatever the options; the schema type
    accepts undefined and otherwise answers as [isArrayOfType] of the
    element schema, which is what its [isRequired] runs. *)
Theorem arrayOf_schema_type (R : realm) (E options : value) (σ : store) :
  exists s required σ',
    SchemaTypes.arrayOf E options σ = (Return s, σ') /\
    get R σ' s "isRequired" = Return required /\
    get R σ' s "_elementType" = Return E /\
    forall σ'' v,
      call R σ'' required v = isArrayOfType R σ'' E v /\
      call R σ'' s VUndefined = Return (VBoolean true) /\
      (v <> VUndefined -> call R σ'' s v = isArrayOfType R σ'' E v).
Proof.
  rewrite arrayOf_unfold.
  set (σ1 := snd (newFunction (IsArrayOfType E) σ)).
  set (literal := setProperty "_elementType" E (spread σ1 [] (orEmptyObject options))).
  destruct (getOptionalSchemaTypeFactory_returns R (next σ) (IsArrayOfType E)
              "arrayOf" (VObject literal) σ1) as (σ' & Hs & Hr).
  pose proof (factory_store_optional (next σ) (IsArrayOfType E) "arrayOf"
                (VObject literal) literal σ1 eq_refl) as Hopt.
  rewrite Hs in Hopt. simpl in Hopt.
  eexists _, _, σ'. split; [exact Hs|]. split; [exact Hr|]. split.
  - rewrite (get_assigned_proto R σ' _ _ "_elementType" _ _ Hopt eq_refl eq_refl eq_refl).
    rewrite (assoc_fold_setProperty_present "_elementType" E); [reflexivity | |].
    + apply setProperty_NoDup. apply fold_setProperty_NoDup. constructor.
    + apply In_setProperty.
  - intros σ'' v. split; [reflexivity|]. split; [reflexivity|].
    intros Hv. unfold call. simpl. rewrite typeof_undefined.
    destruct v; try reflexivity. congruence.
Qed.

Lemma get_function_ext
  (R : realm) (σ σ' : store) (id : loc) (c : code) (key : string) :
  fobjectOf σ id = fobjectOf σ' id ->
  get R σ (VFunction id c) key = get R σ' (VFunction id c) key.
Proof.
  intros H. unfold get, ownProperty, poisoned, inheritedProperty, ownEntries.
  now rewrite H.
Qed.

(** A call of [arrayOf] writes the two function objects it creates and no
    other. *)
Lemma arrayOf_frame (E options : value) (σ : store) (id : loc) :
  id <> next σ ->
  id <> S (next σ) ->
  fobjectOf (snd (SchemaTypes.arrayOf E options σ)) id = fobjectOf σ id.
Proof.
  intros H1 H2. rewrite arrayOf_unfold.
  unfold getOptionalSchemaTypeFactory, mbind. simpl.
  rewrite !fobjectOf_write_other by congruence.
  unfold fobjectOf. simpl. now rewrite !lookup_delete_ne by congruence.
Qed.

(** Two schema types made by [arrayOf] share nothing: their [isRequired]
    are two function objects, and making the second leaves every property
    of the first and of its [isRequired] as it was. *)
Theorem arrayOf_twice_shares_nothing (R : realm) (E options1 options2 : value) (σ : store) :
  exists a b ra rb σ1 σ2,
    SchemaTypes.arrayOf E options1 σ = (Return a, σ1) /\
    SchemaTypes.arrayOf E options2 σ1 = (Return b, σ2) /\
    get R σ2 a "isRequired" = Return ra /\
    get R σ2 b "isRequired" = Return rb /\
    ra <> rb /\
    forall key,
      get R σ2 a key = get R σ1 a key /\
      get R σ2 ra key = get R σ1 ra key.
Proof.
  set (σ1 := snd (SchemaTypes.arrayOf E options1 σ)).
  set (σ2 := snd (SchemaTypes.arrayOf E options2 σ1)).
  set (ra := VFunction (next σ) (IsArrayOfType E)).
  set (a := VFunction (S (next σ)) (OptionalValidator ra)).
  set (rb := VFunction (next σ1) (IsArrayOfType E)).
  set (b := VFunction (S (next σ1)) (OptionalValidator rb)).
  assert (Ha : SchemaTypes.arrayOf E options1 σ = (Return a, σ1)) by reflexivity.
  assert (Hb : SchemaTypes.arrayOf E options2 σ1 = (Return b, σ2)) by reflexivity.
  assert (Hnext : next σ1 = S (S (next σ))) by reflexivity.
  assert (Hframe : forall id, id = next σ \/ id = S (next σ) ->
                     fobjectOf σ2 id = fobjectOf σ1 id).
  { intros id Hid. apply arrayOf_frame; rewrite Hnext; lia. }
  assert (Hra : get R σ1 a "isRequired" = Return ra).
  { unfold σ1, a, ra. rewrite arrayOf_unfold.
    set (σ0 := snd (newFunction (IsArrayOfType E) σ)).
    destruct (getOptionalSchemaTypeFactory_returns R (next σ) (IsArrayOfType E)
                "arrayOf"
                (VObject (setProperty "_elementType" E
                            (spread σ0 [] (orEmptyObject options1)))) σ0)
      as (σ' & Hs & Hr).
    rewrite Hs. exact Hr. }
  assert (Hrb : get R σ2 b "isRequired" = Return rb).
  { unfold σ2, b, rb. rewrite arrayOf_unfold.
    set (σ0 := snd (newFunction (IsArrayOfType E) σ1)).
    destruct (getOptionalSchemaTypeFactory_returns R (next σ1) (IsArrayOfType E)
                "arrayOf"
                (VObject (setProperty "_elementType" E
                            (spread σ0 [] (orEmptyObject options2)))) σ0)
      as (σ' & Hs & Hr).
    rewrite Hs. exact Hr. }
  exists a, b, ra, rb, σ1, σ2.
  split; [exact Ha|]. split; [exact Hb|]. split.
  { rewrite <- Hra. unfold a. apply get_function_ext. apply Hframe. auto. }
  split; [exact Hrb|]. split.
  { unfold ra, rb. rewrite Hnext. intros H. injection H as H. lia. }
  intros key. unfold a, ra. split; apply get_function_ext; apply Hframe; auto.
Qed.

(** ** Matching a mapping *)

Lemma truthy_fold_and (ms : list value) (init : value) :
  truthy (fold_left and_ ms init) = truthy init && forallb truthy ms.
Proof.
  revert init. induction ms as [|m ms IH]; intros init; simpl.
  - now rewrite andb_true_r.
  - rewrite IH. unfold and_. destruct (truthy init) eqn:E; simpl; [reflexivity|].
    now rewrite E.
Qed.

Lemma mapEntries_Forall2 {A : Type} (f : string -> value -> result A)
  (ps : props) (rs : list A) :
  mapEntries f ps = Return rs <->
  List.Forall2 (fun kv r => f (fst kv) (snd kv) = Return r) ps rs.
Proof.
  revert rs. induction ps as [|[key child] ps IH]; intros rs; simpl.
  - split.
    + intros H. injection H as <-. constructor.
    + intros H. inversion H. reflexivity.
  - split.
    + intros H. apply bind_Return in H as (r & Hr & H).
      apply bind_Return in H as (rs' & Hrs & H). injection H as <-.
      constructor; [exact Hr | now apply IH].
    + intros H. inversion H as [|? r ? rs' Hr Hrs]; subst. simpl in Hr.
      rewrite Hr. simpl. apply IH in Hrs. now rewrite Hrs.
Qed.

Section MappingFacts.
Variable R : realm.
Variable σ : store.

(** On a valid schema [objectMatchesSchema] is the matcher. *)
Lemma objectMatchesSchema_valid (S v : value) :
  validSchema R σ S ->
  objectMatchesSchema R σ S v = objectMatchesSchemaInner R σ S v.
Proof.
  intros H. unfold objectMatchesSchema, validated.
  now rewrite (isValidSchema_complete R σ S H).
Qed.

(** A schema against which something matches is valid. *)
Lemma matchesSchema_valid (S v : value) :
  matchesSchema R σ S v -> validSchema R σ S.
Proof.
  intros (r & H & _). unfold objectMatchesSchema, validated in H.
  destruct (isValidSchema R σ S EmptyString) as [n|] eqn:E; [|discriminate].
  pose proof (isValidSchema_returns_null _ _ _ _ _ E). subst n.
  eapply isValidSchema_sound. exact E.
Qed.

Lemma unmarked_mapping_valid (ps : props) (marker : value) :
  get R σ (VObject ps) "_isSchemaType" = Return marker ->
  truthy marker = false ->
  (validSchema R σ (VObject ps) <->
   ps <> [] /\ Forall (fun kv => validSchema R σ (snd kv)) ps).
Proof.
  intros Hm Ht. split.
  - intros H. inversion H as [? m Hm' Ht' | ? _ Hne Hall]; subst; [congruence|].
    now split.
  - intros [Hne Hall]. now apply valid_fields.
Qed.

(** The matcher on a mapping without the marker. *)
Lemma inner_mapping (ps : props) (marker v : value) :
  get R σ (VObject ps) "_isSchemaType" = Return marker ->
  truthy marker = false ->
  objectMatchesSchemaInner R σ (VObject ps) v =
    (matches <- mapEntries
                  (fun key child =>
                     field <- guardedGet R σ v key ;;
                     objectMatchesSchemaInner R σ child field) ps ;;
     Return (fold_left and_ matches (VBoolean true))).
Proof.
  intros Hm Ht. rewrite objectMatchesSchemaInner_eq, Hm. cbn [bind].
  now rewrite Ht.
Qed.

(** A value matches a mapping exactly when, for every field of the
    mapping, the field read from the value matches the schema of the
    field. *)
Theorem mapping_matches_iff (ps : props) (marker v : value) :
  get R σ (VObject ps) "_isSchemaType" = Return marker ->
  truthy marker = false ->
  ps <> [] ->
  (matchesSchema R σ (VObject ps) v <->
   Forall (fun kv => exists field,
             guardedGet R σ v (fst kv) = Return field /\
             matchesSchema R σ (snd kv) field) ps).
Proof.
  intros Hm Ht Hne. split.
  - intros Hmatch. pose proof (matchesSchema_valid _ _ Hmatch) as Hvalid.
    destruct Hmatch as (r & Hr & Htr).
    rewrite (objectMatchesSchema_valid _ _ Hvalid) in Hr.
    rewrite (inner_mapping _ _ _ Hm Ht) in Hr.
    apply bind_Return in Hr as (ms & Hms & Hr). injection Hr as <-.
    rewrite truthy_fold_and in Htr. simpl in Htr.
    apply (unmarked_mapping_valid _ _ Hm Ht) in Hvalid as [_ Hall].
    apply mapEntries_Forall2 in Hms.
    clear Hm Hne. induction Hms as [|[key child] m ps' ms' Hf Hrest IH];
      [constructor|].
    simpl in *. apply andb_true_iff in Htr as [Htm Htr].
    inversion Hall as [|? ? Hchild Hall']; subst.
    constructor; [|now apply IH].
    apply bind_Return in Hf as (field & Hfield & Hinner).
    exists field. split; [exact Hfield|]. exists m.
    now rewrite (objectMatchesSchema_valid _ _ Hchild).
  - intros Hall.
    assert (Hvalid : validSchema R σ (VObject ps)).
    { apply (unmarked_mapping_valid _ _ Hm Ht). split; [assumption|].
      eapply Forall_impl; [exact Hall|].
      intros kv (field & _ & Hmatch). eapply matchesSchema_valid; eauto. }
    assert (Hms : exists ms,
      mapEntries (fun key child =>
                    field <- guardedGet R σ v key ;;
                    objectMatchesSchemaInner R σ child field) ps = Return ms /\
      forallb truthy ms = true).
    { clear Hm Hne Hvalid. induction Hall as [|[key child] ps' Hkv _ IH].
      - exists []. now split.
      - destruct Hkv as (field & Hfield & Hmatch). destruct IH as (ms & Hms & Hall).
        pose proof (matchesSchema_valid _ _ Hmatch) as Hchild.
        destruct Hmatch as (m & Hmr & Htm).
        rewrite (objectMatchesSchema_valid _ _ Hchild) in Hmr.
        exists (m :: ms). simpl in *. rewrite Hfield. simpl. rewrite Hmr. simpl.
        rewrite Hms. simpl. now rewrite Htm, Hall. }
    destruct Hms as (ms & Hms & Htr).
    exists (fold_left and_ ms (VBoolean true)). split.
    + rewrite (objectMatchesSchema_valid _ _ Hvalid).
      rewrite (inner_mapping _ _ _ Hm Ht), Hms. reflexivity.
    + rewrite truthy_fold_and. simpl. exact Htr.
Qed.
End MappingFacts.

Lemma mapping_matches_iff_witness :
  matchesSchema bare (snd (SchemaTypes.string VUndefined initialStore))
    (VObject [("a", VFunction 8 (OptionalValidator stringValidator))])
    (VObject [("a", VString "hi")]) <->
  Forall (fun kv => exists field,
            guardedGet bare (snd (SchemaTypes.string VUndefined initialStore))
              (VObject [("a", VString "hi")]) (fst kv) = Return field /\
            matchesSchema bare (snd (SchemaTypes.string VUndefined initialStore))
              (snd kv) field)
    [("a", VFunction 8 (OptionalValidator stringValidator))].
Proof.
  apply (mapping_matches_iff bare (snd (SchemaTypes.string VUndefined initialStore))
           [("a", VFunction 8 (OptionalValidator stringValidator))] VUndefined);
    [reflexivity | reflexivity | discriminate].
Defined.

(** ** Optional fields *)

Lemma mapEntries_all_true (f : string -> value -> result value) (ps : props) :
  Forall (fun kv => f (fst kv) (snd kv) = Return (VBoolean true)) ps ->
  mapEntries f ps = Return (map (fun _ => VBoolean true) ps).
Proof.
  induction 1 as [|[key child] ps Hkv _ IH]; simpl; [reflexivity|].
  simpl in Hkv. rewrite Hkv. simpl. now rewrite IH.
Qed.

Lemma fold_and_all_true {A : Type} (l : list A) :
  fold_left and_ (map (fun _ => VBoolean true) l) (VBoolean true) = VBoolean true.
Proof. induction l as [|x l IH]; simpl; [reflexivity | exact IH]. Qed.

Section OptionalFacts.
Variable R : realm.
Variable σ : store.

Lemma optionalSchema_valid (S : value) :
  optionalSchema R σ S -> validSchema R σ S.
Proof.
  induction S as [S IH] using value_children_ind. intros H.
  inversion H as [id f m Hm Ht | ps m Hm Ht Hne Hall]; subst.
  - eapply valid_marked; eauto.
  - apply valid_fields; [reflexivity | exact Hne |]. simpl in *.
    rewrite List.Forall_forall in *. intros kv Hin. apply (IH kv Hin), (Hall kv Hin).
Qed.

Lemma optionalSchema_inner (S : value) :
  optionalSchema R σ S ->
  objectMatchesSchemaInner R σ S VUndefined = Return (VBoolean true).
Proof.
  induction S as [S IH] using value_children_ind. intros H.
  inversion H as [id f m Hm Ht | ps m Hm Ht Hne Hall]; subst.
  - rewrite objectMatchesSchemaInner_eq, Hm. cbn [bind]. rewrite Ht. reflexivity.
  - rewrite (inner_mapping R σ _ _ _ Hm Ht).
    rewrite mapEntries_all_true.
    + cbn [bind]. now rewrite fold_and_all_true.
    + simpl in IH. rewrite List.Forall_forall in *. intros kv Hin.
      simpl. apply (IH kv Hin), (Hall kv Hin).
Qed.

(** Fields are optional unless marked otherwise: [undefined] matches
    every schema whose leaves are all optional. *)
Theorem undefined_matches_optional_schema (S : value) :
  optionalSchema R σ S ->
  objectMatchesSchema R σ S VUndefined = Return (VBoolean true).
Proof.
  intros H. rewrite (objectMatchesSchema_valid R σ S VUndefined).
  - now apply optionalSchema_inner.
  - now apply optionalSchema_valid.
Qed.
End OptionalFacts.

Lemma undefined_matches_optional_schema_witness :
  optionalSchema bare (snd (SchemaTypes.string VUndefined initialStore))
    (VObject [("a", VFunction 8 (OptionalValidator stringValidator))]) /\
  objectMatchesSchema bare (snd (SchemaTypes.string VUndefined initialStore))
    (VObject [("a", VFunction 8 (OptionalValidator stringValidator))]) VUndefined
  = Return (VBoolean true).
Proof.
  assert (H : optionalSchema bare (snd (SchemaTypes.string VUndefined initialStore))
                (VObject [("a", VFunction 8 (OptionalValidator stringValidator))])).
  { apply optional_mapping with (marker := VUndefined);
      [reflexivity | reflexivity | discriminate |].
    apply List.Forall_cons; [|apply List.Forall_nil]. simpl.
    apply optional_leaf with (marker := VBoolean true);
      [vm_compute; reflexivity | reflexivity]. }
  split; [exact H|].
  exact (undefined_matches_optional_schema _ _ _ H).
Defined.

(** ** The first invalid field *)

Lemma mapEntries_first_Throw {A : Type} (f : string -> value -> result A)
  (before after : props) (key : string) (child : value) (e : exception) :
  Forall (fun kv => exists r, f (fst kv) (snd kv) = Return r) before ->
  f key child = Throw e ->
  mapEntries f (before ++ (key, child) :: after) = Throw e.
Proof.
  intros Hbefore Hf. induction Hbefore as [|[k c] ps (r & Hr) _ IH]; simpl.
  - now rewrite Hf.
  - simpl in Hr. rewrite Hr. simpl. now rewrite IH.
Qed.

(** The fields of a mapping are checked in key order, and the error of
    the check is the error of the first field that is not a valid
    schema: fields after it are not looked at. *)
Theorem isValidSchema_first_invalid_field (R : realm) (σ : store)
  (before after : props) (key : string) (child marker : value)
  (location : string) (e : exception) :
  get R σ (VObject (before ++ (key, child) :: after)) "_isSchemaType" = Return marker ->
  truthy marker = false ->
  Forall (fun kv => validSchema R σ (snd kv)) before ->
  isValidSchema R σ child (location +:+ "." +:+ key) = Throw e ->
  isValidSchema R σ (VObject (before ++ (key, child) :: after)) location = Throw e.
Proof.
  intros Hm Ht Hbefore Hchild. rewrite isValidSchema_eq, Hm. cbn [bind].
  rewrite Ht.
  assert (Hc : (typeof (VObject (before ++ (key, child) :: after)) =? "object") &&
               (0 <? length (Object_keys σ (VObject (before ++ (key, child) :: after))))%nat
               = true).
  { apply mapping_test; [reflexivity|]. simpl. now destruct before. }
  rewrite Hc. change (fieldsOf σ (VObject (before ++ (key, child) :: after)))
    with (before ++ (key, child) :: after).
  rewrite (mapEntries_first_Throw _ before after key child e); [reflexivity | | exact Hchild].
  eapply Forall_impl; [exact Hbefore|]. intros kv Hv. exists VNull.
  now apply isValidSchema_complete.
Qed.

Lemma isValidSchema_first_invalid_field_witness :
  isValidSchema bare (snd (SchemaTypes.string VUndefined initialStore))
    (VObject ([("a", VFunction 8 (OptionalValidator stringValidator))] ++
              ("b", VString "x") :: [("c", VNull)])) EmptyString
  = Throw (Error "(At .b): Expected a SchemaType, but got x:string").
Proof.
  apply (isValidSchema_first_invalid_field bare
           (snd (SchemaTypes.string VUndefined initialStore))
           [("a", VFunction 8 (OptionalValidator stringValidator))]
           [("c", VNull)] "b" (VString "x") VUndefined EmptyString).
  - reflexivity.
  - reflexivity.
  - apply List.Forall_cons; [|apply List.Forall_nil]. simpl.
    apply valid_marked with (marker := VBoolean true);
      [vm_compute; reflexivity | reflexivity].
  - vm_compute. reflexivity.
Defined.
